(** * part4_error_handling.py: request execution, bounded retry and
      response validation

    A shallow embedding of the three functions of
    [part4_error_handling.py] that carry logic,

      - [safe_api_request]            (one GET and its classification),
      - [safe_api_request_with_retry] (the bounded retry loop),
      - [validate_crypto_data]        (the shape check of a decoded payload),

    together with the part of Python and of the [requests] library they
    rely on: the [in] operator and subscripting on decoded JSON values,
    [except] clauses selected by [isinstance], [Response.raise_for_status]
    and [Response.json].  Logging, the transport call counter and
    [time.sleep] are effects on an explicit [world].  The request
    functions are read twice: on a transport that ends within the
    exceptions of [requests.exceptions], and, in [Full], on one that can
    also end with an exception of any other class. *)

From Stdlib Require Import ZArith QArith String Ascii List Bool Lia DecimalString.
Import ListNotations.
Set Warnings "-register-all".
Open Scope string_scope.
Open Scope Z_scope.

(** ** Python values *)

(** Values as [json.loads] produces them, which is also enough for the
    dictionaries the functions build themselves.  A [PDict] keeps its
    entries in insertion order; Python dictionaries hold each key once,
    so the first entry of a key is its only one. *)
Inductive pyval : Type :=
| PNone
| PBool (b : bool)
| PInt (n : Z)
| PFloat (x : Q)
| PStr (s : string)
| PList (items : list pyval)
| PDict (entries : list (string * pyval)).

Fixpoint dict_get (entries : list (string * pyval)) (key : string) : option pyval :=
  match entries with
  | [] => None
  | (k, v) :: rest => if String.eqb k key then Some v else dict_get rest key
  end.

Definition dict_has (entries : list (string * pyval)) (key : string) : bool :=
  match dict_get entries key with Some _ => true | None => false end.

(** [str(n)] for an integer. *)
Definition py_str_int (n : Z) : string := NilZero.string_of_int (Z.to_int n).

(** [needle in hay] for two strings: substring search. *)
Fixpoint is_substring (needle hay : string) : bool :=
  String.prefix needle hay ||
  match hay with
  | EmptyString => false
  | String _ rest => is_substring needle rest
  end.

(** [repr(s)] for a string without quotes, backslashes or control
    characters, which is what the field names of this program are. *)
Definition py_repr_str (s : string) : string := "'" ++ s ++ "'".

(** [str(l)] for a list of such strings: ['a', 'b']. *)
Definition py_str_list (l : list string) : string :=
  "[" ++ String.concat ", " (map py_repr_str l) ++ "]".

(** A message mentions a text when the text occurs in it. *)
Definition mentions (msg part : string) : Prop :=
  exists pre post, msg = pre ++ part ++ post.

(** ** The requests library: responses and exceptions *)

(** What the program reads of a [requests.Response]: the status line,
    the final URL, and what [Response.json()] makes of the body, either
    the decoded value or the decoder's message. *)
Record response : Type := {
  status_code : Z;
  reason : string;
  resp_url : string;
  body_json : pyval + string
}.

(** The classes of [requests.exceptions]. *)
Inductive exc_class : Type :=
| RequestException
| InvalidJSONError
| JSONDecodeError
| HTTPError
| ConnectionError
| ProxyError
| SSLError
| Timeout
| ConnectTimeout
| ReadTimeout
| URLRequired
| TooManyRedirects
| MissingSchema
| InvalidSchema
| InvalidURL
| InvalidProxyURL
| InvalidHeader
| ChunkedEncodingError
| ContentDecodingError
| StreamConsumedError
| RetryError
| UnrewindableBodyError.

Definition exc_class_eqb (c d : exc_class) : bool :=
  match c, d with
  | RequestException, RequestException
  | InvalidJSONError, InvalidJSONError
  | JSONDecodeError, JSONDecodeError
  | HTTPError, HTTPError
  | ConnectionError, ConnectionError
  | ProxyError, ProxyError
  | SSLError, SSLError
  | Timeout, Timeout
  | ConnectTimeout, ConnectTimeout
  | ReadTimeout, ReadTimeout
  | URLRequired, URLRequired
  | TooManyRedirects, TooManyRedirects
  | MissingSchema, MissingSchema
  | InvalidSchema, InvalidSchema
  | InvalidURL, InvalidURL
  | InvalidProxyURL, InvalidProxyURL
  | InvalidHeader, InvalidHeader
  | ChunkedEncodingError, ChunkedEncodingError
  | ContentDecodingError, ContentDecodingError
  | StreamConsumedError, StreamConsumedError
  | RetryError, RetryError
  | UnrewindableBodyError, UnrewindableBodyError => true
  | _, _ => false
  end.

(** The base classes each class declares inside [requests.exceptions].
    [ConnectTimeout] derives from both [ConnectionError] and [Timeout]. *)
Definition bases (c : exc_class) : list exc_class :=
  match c with
  | RequestException => []
  | InvalidJSONError => [RequestException]
  | JSONDecodeError => [InvalidJSONError]
  | HTTPError => [RequestException]
  | ConnectionError => [RequestException]
  | ProxyError => [ConnectionError]
  | SSLError => [ConnectionError]
  | Timeout => [RequestException]
  | ConnectTimeout => [ConnectionError; Timeout]
  | ReadTimeout => [Timeout]
  | URLRequired => [RequestException]
  | TooManyRedirects => [RequestException]
  | MissingSchema => [RequestException]
  | InvalidSchema => [RequestException]
  | InvalidURL => [RequestException]
  | InvalidProxyURL => [InvalidURL]
  | InvalidHeader => [RequestException]
  | ChunkedEncodingError => [RequestException]
  | ContentDecodingError => [RequestException]
  | StreamConsumedError => [RequestException]
  | RetryError => [RequestException]
  | UnrewindableBodyError => [RequestException]
  end.

(** [issubclass], following [bases] upwards; the hierarchy is three
    classes deep. *)
Fixpoint issubclass_upto (depth : nat) (c d : exc_class) : bool :=
  exc_class_eqb c d ||
  match depth with
  | O => false
  | S depth' => existsb (fun b => issubclass_upto depth' b d) (bases c)
  end.

Definition issubclass (c d : exc_class) : bool := issubclass_upto 3 c d.

(** An exception object: its class, [str(e)] and its [response]
    attribute, which [requests] leaves at [None] unless the exception is
    built with one. *)
Record req_exc : Type := {
  exc_cls : exc_class;
  exc_msg : string;
  exc_response : option response
}.

Definition isinstance (e : req_exc) (c : exc_class) : bool :=
  issubclass (exc_cls e) c.

(** The classes [requests.get] raises while it sends the request and
    reads the response.  [HTTPError] is raised by
    [Response.raise_for_status] only and [JSONDecodeError] by
    [Response.json] only. *)
Inductive send_error : Type :=
| SendConnectionError
| SendProxyError
| SendSSLError
| SendConnectTimeout
| SendReadTimeout
| SendTooManyRedirects
| SendMissingSchema
| SendInvalidSchema
| SendInvalidURL
| SendInvalidProxyURL
| SendInvalidHeader
| SendChunkedEncodingError
| SendContentDecodingError
| SendRetryError.

Definition class_of_send_error (s : send_error) : exc_class :=
  match s with
  | SendConnectionError => ConnectionError
  | SendProxyError => ProxyError
  | SendSSLError => SSLError
  | SendConnectTimeout => ConnectTimeout
  | SendReadTimeout => ReadTimeout
  | SendTooManyRedirects => TooManyRedirects
  | SendMissingSchema => MissingSchema
  | SendInvalidSchema => InvalidSchema
  | SendInvalidURL => InvalidURL
  | SendInvalidProxyURL => InvalidProxyURL
  | SendInvalidHeader => InvalidHeader
  | SendChunkedEncodingError => ChunkedEncodingError
  | SendContentDecodingError => ContentDecodingError
  | SendRetryError => RetryError
  end.

(** The outcome of one [requests.get(url, timeout=timeout)] that stays
    within the library's own exceptions.  The call can also end with an
    exception of another class; [any_outcome] below adds those. *)
Inductive get_outcome : Type :=
| GetRaises (s : send_error) (msg : string)
| GetReturns (r : response).

(** ** Effects *)

Inductive level : Type := INFO | WARNING | ERROR | CRITICAL.

(** The world a call runs in: how many GET requests were issued, how
    many seconds were slept, and the log records in the order they were
    emitted. *)
Record world : Type := {
  calls : nat;
  slept : Z;
  log : list (level * string)
}.

Definition world0 : world := {| calls := 0; slept := 0; log := [] |}.

(** Exceptions a call can end with: those the operators on values
    raise, those of [requests.exceptions], and any other, given by the
    name of its class and by [str(e)]. *)
Inductive pyexc : Type :=
| TypeError
| KeyError (key : string)
| AttributeError
| Requests (e : req_exc)
| OtherException (class_name text : string).

Inductive outcome (A : Type) : Type :=
| Ret (a : A)
| Raise (e : pyexc).
Arguments Ret {A} a.
Arguments Raise {A} e.

Definition M (A : Type) : Type := world -> outcome A * world.

Definition ret {A} (a : A) : M A := fun w => (Ret a, w).

Definition raise {A} (e : pyexc) : M A := fun w => (Raise e, w).

Definition bind {A B} (m : M A) (f : A -> M B) : M B :=
  fun w =>
    match m w with
    | (Ret a, w') => f a w'
    | (Raise e, w') => (Raise e, w')
    end.

(** [try: body / except ...: handler]; a handler that matches no clause
    re-raises. *)
Definition try_except {A} (body : M A) (handler : pyexc -> M A) : M A :=
  fun w =>
    match body w with
    | (Ret a, w') => (Ret a, w')
    | (Raise e, w') => handler e w'
    end.

Notation "x <- m ;; k" := (bind m (fun x => k))
  (at level 61, m at next level, right associativity).
Notation "m ;;; k" := (bind m (fun _ => k))
  (at level 61, right associativity).

Definition logging (lvl : level) (msg : string) : M unit :=
  fun w => (Ret tt, {| calls := calls w; slept := slept w;
                        log := log w ++ [(lvl, msg)] |}).

Definition time_sleep (seconds : Z) : M unit :=
  fun w => (Ret tt, {| calls := calls w; slept := slept w + seconds;
                        log := log w |}).

(** ** Operators on values *)

(** [key in container] for a string [key]: key membership on a
    dictionary, element membership on a list, substring search on a
    string, [TypeError] on anything else. *)
Definition py_in (key : string) (container : pyval) : M bool :=
  match container with
  | PDict entries => ret (dict_has entries key)
  | PList items =>
      ret (existsb (fun v => match v with
                             | PStr s => String.eqb s key
                             | _ => false
                             end) items)
  | PStr s => ret (is_substring key s)
  | PNone | PBool _ | PInt _ | PFloat _ => raise TypeError
  end.

(** [container[key]] for a string [key]: lookup on a dictionary
    ([KeyError] when absent), [TypeError] on anything else (lists and
    strings take integer indices, the rest is not subscriptable). *)
Definition py_getitem (container : pyval) (key : string) : M pyval :=
  match container with
  | PDict entries =>
      match dict_get entries key with
      | Some v => ret v
      | None => raise (KeyError key)
      end
  | _ => raise TypeError
  end.

(** ** validate_crypto_data *)

Definition required_fields : list string := ["price"; "percent_change_24h"].

(** [[field for field in fields if field not in data["quotes"]["USD"]]];
    the condition is evaluated afresh for each field. *)
Fixpoint missing_fields (fields : list string) (data : pyval)
  : M (list string) :=
  match fields with
  | [] => ret []
  | field :: rest =>
      quotes <- py_getitem data "quotes" ;;
      usd <- py_getitem quotes "USD" ;;
      present <- py_in field usd ;;
      others <- missing_fields rest data ;;
      ret (if present then others else field :: others)
  end.

Definition validate_crypto_data (data : pyval) : M pyval :=
  logging INFO "Validating crypto data structure..." ;;;
  has_quotes <- py_in "quotes" data ;;
  if negb has_quotes then
    logging ERROR "Missing 'quotes' field" ;;;
    ret (PDict [("valid", PBool false); ("error", PStr "'quotes' field missing")])
  else
    quotes <- py_getitem data "quotes" ;;
    has_usd <- py_in "USD" quotes ;;
    if negb has_usd then
      logging ERROR "Missing 'USD' field inside quotes" ;;;
      ret (PDict [("valid", PBool false);
                  ("error", PStr "'USD' field missing inside quotes")])
    else
      missing <- missing_fields required_fields data ;;
      match missing with
      | _ :: _ =>
          logging ERROR ("Missing fields inside USD: " ++ py_str_list missing) ;;;
          ret (PDict [("valid", PBool false);
                      ("error", PStr ("Missing fields inside USD: "
                                        ++ py_str_list missing))])
      | [] =>
          logging INFO "Crypto data validated successfully" ;;;
          ret (PDict [("valid", PBool true)])
      end.

(** ** The request functions *)

Section Executor.

(** The transport: what the [n]-th call of [requests.get] in this run
    does for a URL and a timeout in seconds. *)
Variable transport : nat -> string -> Z -> get_outcome.

Definition requests_get (url : string) (timeout : Z) : M response :=
  fun w =>
    let w' := {| calls := S (calls w); slept := slept w; log := log w |} in
    match transport (calls w) url timeout with
    | GetRaises s msg =>
        (Raise (Requests {| exc_cls := class_of_send_error s;
                            exc_msg := msg;
                            exc_response := None |}), w')
    | GetReturns r => (Ret r, w')
    end.

(** [Response.raise_for_status]: client errors are 400..499, server
    errors 500..599; nothing else raises. *)
Definition http_error_msg (r : response) : string :=
  if (400 <=? status_code r) && (status_code r <? 500) then
    py_str_int (status_code r) ++ " Client Error: " ++ reason r
      ++ " for url: " ++ resp_url r
  else if (500 <=? status_code r) && (status_code r <? 600) then
    py_str_int (status_code r) ++ " Server Error: " ++ reason r
      ++ " for url: " ++ resp_url r
  else "".

Definition raise_for_status (r : response) : M unit :=
  match http_error_msg r with
  | EmptyString => ret tt
  | msg => raise (Requests {| exc_cls := HTTPError;
                              exc_msg := msg;
                              exc_response := Some r |})
  end.

(** [Response.json]: the decoded body, or
    [requests.exceptions.JSONDecodeError], the class the program names
    itself in [validate_json_response]; it derives from
    [RequestException]. *)
Definition response_json (r : response) : M pyval :=
  match body_json r with
  | inl value => ret value
  | inr msg => raise (Requests {| exc_cls := JSONDecodeError;
                                  exc_msg := msg;
                                  exc_response := None |})
  end.

(** The statements under [try:], the same in both functions. *)
Definition try_body (url : string) (timeout : Z) : M pyval :=
  response <- requests_get url timeout ;;
  raise_for_status response ;;;
  logging INFO "Request successful!" ;;;
  data <- response_json response ;;
  ret (PDict [("success", PBool true); ("data", data)]).

Definition failure (msg : string) : pyval :=
  PDict [("success", PBool false); ("error", PStr msg)].

(** [e.response.status_code]; [AttributeError] when [e.response] is
    [None]. *)
Definition exc_status_code (e : req_exc) : M Z :=
  match exc_response e with
  | Some r => ret (status_code r)
  | None => raise AttributeError
  end.

Definition safe_api_request_handler (timeout : Z) (exc : pyexc) : M pyval :=
  match exc with
  | Requests e =>
      if isinstance e ConnectionError then
        logging ERROR "Connection failed" ;;;
        ret (failure "Connection failed. Check your internet.")
      else if isinstance e Timeout then
        logging ERROR "Request timed out" ;;;
        ret (failure ("Request timed out after " ++ py_str_int timeout
                        ++ " seconds."))
      else if isinstance e HTTPError then
        code <- exc_status_code e ;;
        logging ERROR ("HTTP Error " ++ py_str_int code) ;;;
        code' <- exc_status_code e ;;
        ret (failure ("HTTP Error: " ++ py_str_int code'))
      else if isinstance e RequestException then
        logging ERROR ("General request error: " ++ exc_msg e) ;;;
        ret (failure ("Request failed: " ++ exc_msg e))
      else raise exc
  | _ => raise exc
  end.

Definition safe_api_request (url : string) (timeout : Z) : M pyval :=
  logging INFO ("Requesting URL: " ++ url) ;;;
  try_except (try_body url timeout) (safe_api_request_handler timeout).

(** [range(lo, hi)]. *)
Definition py_range (lo hi : Z) : list Z :=
  map (fun i => lo + Z.of_nat i) (seq 0 (Z.to_nat (hi - lo))).

(** The [for] loop of [safe_api_request_with_retry] over the attempts
    still to run.  Running off the end of the loop is the end of the
    function: it returns [None]. *)
Fixpoint retry_loop (url : string) (timeout retries : Z) (attempts : list Z)
  : M pyval :=
  match attempts with
  | [] => ret PNone
  | attempt :: rest =>
      logging INFO ("Attempt " ++ py_str_int attempt ++ " of "
                      ++ py_str_int retries ++ " → Requesting " ++ url) ;;;
      try_except (try_body url timeout)
        (fun exc =>
           match exc with
           | Requests e =>
               if isinstance e ConnectionError || isinstance e Timeout
                  || isinstance e HTTPError || isinstance e RequestException
               then
                 logging ERROR ("Error on attempt " ++ py_str_int attempt
                                  ++ ": " ++ exc_msg e) ;;;
                 if attempt =? retries then
                   logging CRITICAL "All retries failed — returning error." ;;;
                   ret (failure ("Failed after " ++ py_str_int retries
                                   ++ " attempts: " ++ exc_msg e))
                 else
                   logging WARNING "Retrying in 1 second..." ;;;
                   time_sleep 1 ;;;
                   retry_loop url timeout retries rest
               else raise exc
           | _ => raise exc
           end)
  end.

Definition safe_api_request_with_retry (url : string) (timeout retries : Z)
  : M pyval :=
  retry_loop url timeout retries (py_range 1 (retries + 1)).

End Executor.

(** ** What the claims speak about *)

(** The results of the validator. *)
Definition valid_result : pyval := PDict [("valid", PBool true)].

Definition invalid_result (reason : string) : pyval :=
  PDict [("valid", PBool false); ("error", PStr reason)].

(** The result of a successful attempt. *)
Definition success (data : pyval) : pyval :=
  PDict [("success", PBool true); ("data", data)].

(** The requirement as the specification words it: the payload is a
    mapping, its quotes entry is a mapping with a USD entry, and that
    entry is a mapping with the keys price and percent_change_24h. *)
Definition has_quotes_usd_fields (data : pyval) : bool :=
  match data with
  | PDict d =>
      match dict_get d "quotes" with
      | Some (PDict q) =>
          match dict_get q "USD" with
          | Some (PDict u) => dict_has u "price" && dict_has u "percent_change_24h"
          | _ => false
          end
      | _ => false
      end
  | _ => false
  end.

(** The entry at quotes.USD, when the payload has one, is a mapping. *)
Definition usd_is_mapping (data : pyval) : bool :=
  match data with
  | PDict d =>
      match dict_get d "quotes" with
      | Some (PDict q) =>
          match dict_get q "USD" with
          | Some (PDict _) | None => true
          | Some _ => false
          end
      | _ => true
      end
  | _ => true
  end.

(** A value supports [in]. *)
Definition supports_membership (v : pyval) : bool :=
  match v with
  | PDict _ | PList _ | PStr _ => true
  | _ => false
  end.

(** The shape of a result of the request functions: a mapping with
    success, with data exactly when success is true and with error
    exactly when it is false. *)
Definition result_shape (v : pyval) : Prop :=
  exists entries b,
    v = PDict entries /\
    dict_get entries "success" = Some (PBool b) /\
    (dict_has entries "data" = true <-> b = true) /\
    (dict_has entries "error" = true <-> b = false).

(** What the statements under [try:] make of the outcome of the GET:
    the decoded payload, or the exception they end with. *)
Definition attempt_outcome (o : get_outcome) : pyval + req_exc :=
  match o with
  | GetRaises s msg =>
      inr {| exc_cls := class_of_send_error s; exc_msg := msg;
             exc_response := None |}
  | GetReturns r =>
      match http_error_msg r with
      | EmptyString =>
          match body_json r with
          | inl value => inl value
          | inr msg => inr {| exc_cls := JSONDecodeError; exc_msg := msg;
                              exc_response := None |}
          end
      | msg => inr {| exc_cls := HTTPError; exc_msg := msg;
                      exc_response := Some r |}
      end
  end.

(** The four messages [safe_api_request] fails with. *)
Inductive failure_message (timeout : Z) : string -> Prop :=
| ConnectionFailed :
    failure_message timeout "Connection failed. Check your internet."
| TimedOut :
    failure_message timeout
      ("Request timed out after " ++ py_str_int timeout ++ " seconds.")
| HttpStatus (code : Z) :
    failure_message timeout ("HTTP Error: " ++ py_str_int code)
| RequestFailed (msg : string) :
    failure_message timeout ("Request failed: " ++ msg).

(** ** Sample transports *)

(** Every request runs into a read timeout. *)
Definition always_times_out : nat -> string -> Z -> get_outcome :=
  fun _ _ _ => GetRaises SendReadTimeout "Read timed out.".

(** Every request runs into a timeout while connecting. *)
Definition never_connects : nat -> string -> Z -> get_outcome :=
  fun _ _ _ => GetRaises SendConnectTimeout "Connection to example.org timed out.".

Definition post_1 : pyval := PDict [("id", PInt 1); ("title", PStr "sunt aut")].

Definition response_200 (url : string) : response :=
  {| status_code := 200; reason := "OK"; resp_url := url;
     body_json := inl post_1 |}.

(** The first two requests are refused, the third is answered. *)
Definition answers_third : nat -> string -> Z -> get_outcome :=
  fun n url _ =>
    match n with
    | 2%nat => GetReturns (response_200 url)
    | _ => GetRaises SendConnectionError "Connection refused"
    end.


(** A 404 response. *)
Definition answers_404 : nat -> string -> Z -> get_outcome :=
  fun _ url _ =>
    GetReturns {| status_code := 404; reason := "Not Found"; resp_url := url;
                  body_json := inl (PDict []) |}.

(** A response with the status code 600, outside the classes the
    library raises for. *)
Definition answers_600 : nat -> string -> Z -> get_outcome :=
  fun _ url _ =>
    GetReturns {| status_code := 600; reason := "Unknown"; resp_url := url;
                  body_json := inl post_1 |}.

(** ** Further notions on the validator *)

(** A payload of nested mappings: a mapping whose quotes entry, when it
    has one, is a mapping whose USD entry, when it has one, supports
    membership tests. *)
Definition nested_mappings (data : pyval) : bool :=
  match data with
  | PDict d =>
      match dict_get d "quotes" with
      | None => true
      | Some (PDict q) =>
          match dict_get q "USD" with
          | None => true
          | Some usd => supports_membership usd
          end
      | Some _ => false
      end
  | _ => false
  end.

(** Every value the validator returns. *)
Definition validator_results : list pyval :=
  [ valid_result;
    invalid_result "'quotes' field missing";
    invalid_result "'USD' field missing inside quotes";
    invalid_result "Missing fields inside USD: ['price']";
    invalid_result "Missing fields inside USD: ['percent_change_24h']";
    invalid_result "Missing fields inside USD: ['price', 'percent_change_24h']" ].

(** ** Further notions on the retry loop *)

(** The attempt that is the [i]-th after the world [w] fails. *)
Definition fails_at (transport : nat -> string -> Z -> get_outcome)
           (url : string) (timeout : Z) (w : world) (i : nat) : Prop :=
  exists e, attempt_outcome (transport (calls w + i)%nat url timeout) = inr e.


(** ** Further notions on the log *)

Definition level_eqb (a b : level) : bool :=
  match a, b with
  | INFO, INFO | WARNING, WARNING | ERROR, ERROR | CRITICAL, CRITICAL => true
  | _, _ => false
  end.

(** How many records of a level a log holds. *)
Definition count_level (lvl : level) (records : list (level * string)) : nat :=
  length (filter (fun record => level_eqb (fst record) lvl) records).

(** An outcome is a returned failure mapping: success maps to False. *)
Definition reports_failure (o : outcome pyval) : bool :=
  match o with
  | Ret (PDict entries) =>
      match dict_get entries "success" with
      | Some (PBool false) => true
      | _ => false
      end
  | _ => false
  end.

(** ** The console *)

(** A line feed. *)
Definition nl : string := String "010"%char EmptyString.

(** The functions that talk to the user run on a console: the world of
    the request functions, the text written to standard output so far,
    and the lines still to be read from standard input. *)
Record console : Type := {
  con_world : world;
  stdout : string;
  stdin : list string
}.

(** The exceptions of these functions: those of the request functions
    and the validator, the [EOFError] of [input], and the [ValueError]
    a format specification can cause. *)
Inductive exc : Type :=
| Py (e : pyexc)
| EOFError
| ValueError.

Inductive result (A : Type) : Type :=
| Done (a : A)
| Failed (e : exc).
Arguments Done {A} a.
Arguments Failed {A} e.

Definition IO (A : Type) : Type := console -> result A * console.

Definition io_ret {A} (a : A) : IO A := fun c => (Done a, c).

Definition io_raise {A} (e : exc) : IO A := fun c => (Failed e, c).

Definition io_bind {A B} (m : IO A) (f : A -> IO B) : IO B :=
  fun c =>
    match m c with
    | (Done a, c') => f a c'
    | (Failed e, c') => (Failed e, c')
    end.

Definition io_try {A} (body : IO A) (handler : exc -> IO A) : IO A :=
  fun c =>
    match body c with
    | (Done a, c') => (Done a, c')
    | (Failed e, c') => handler e c'
    end.

(** A request function or an operator on values, run on the world of
    the console. *)
Definition lift {A} (m : M A) : IO A :=
  fun c =>
    match m (con_world c) with
    | (Ret a, w') =>
        (Done a, {| con_world := w'; stdout := stdout c; stdin := stdin c |})
    | (Raise e, w') =>
        (Failed (Py e), {| con_world := w'; stdout := stdout c; stdin := stdin c |})
    end.

(** [print(text)]: the text and a line feed. *)
Definition print (text : string) : IO unit :=
  fun c => (Done tt, {| con_world := con_world c;
                        stdout := stdout c ++ text ++ nl;
                        stdin := stdin c |}).

(** [input(prompt)]: the prompt is written, then a line is read;
    [EOFError] when there is none. *)
Definition input (prompt : string) : IO string :=
  fun c =>
    match stdin c with
    | [] => (Failed EOFError, {| con_world := con_world c;
                                 stdout := stdout c ++ prompt;
                                 stdin := [] |})
    | line :: rest => (Done line, {| con_world := con_world c;
                                     stdout := stdout c ++ prompt;
                                     stdin := rest |})
    end.

(** The truth value of a value. *)
Definition py_truth (v : pyval) : bool :=
  match v with
  | PNone => false
  | PBool b => b
  | PInt n => negb (n =? 0)
  | PFloat x => negb (Qeq_bool x 0)
  | PStr s => negb (String.eqb s "")
  | PList items => match items with [] => false | _ :: _ => true end
  | PDict entries => match entries with [] => false | _ :: _ => true end
  end.

(** ["=" * 40] and the like. *)
Fixpoint str_repeat (s : string) (n : nat) : string :=
  match n with
  | O => ""
  | S n' => s ++ str_repeat s n'
  end.

(** [[f for f in fields if f not in data]]. *)
Fixpoint missing_in (fields : list string) (data : pyval) : M (list string) :=
  match fields with
  | [] => ret []
  | field :: rest =>
      present <- py_in field data ;;
      others <- missing_in rest data ;;
      ret (if present then others else field :: others)
  end.

Declare Scope io_scope.
Delimit Scope io_scope with io.
Notation "x <- m ;; k" := (io_bind m (fun x => k))
  (at level 61, m at next level, right associativity) : io_scope.
Notation "m ;;; k" := (io_bind m (fun _ => k))
  (at level 61, right associativity) : io_scope.

(** ** The functions that print *)

Section Printing.

Variable transport : nat -> string -> Z -> get_outcome.

(** Python's own functions on text and values, taken as they are:
    [str.strip] and [str.lower]; [str] of a float, a list or a
    dictionary; [format] with a format specification; the slice
    [value[:n]]; and [str] of a built-in exception. *)
Variable str_strip : string -> string.
Variable str_lower : string -> string.
Variable str_of_value : pyval -> string.
Variable format_spec : pyval -> string -> string + exc.
Variable slice_to : pyval -> Z -> pyval + exc.
Variable builtin_exc_text : exc -> string.

(** [str(v)], which is also what an f-string field without a format
    specification gives. *)
Definition py_str (v : pyval) : string :=
  match v with
  | PNone => "None"
  | PBool true => "True"
  | PBool false => "False"
  | PInt n => py_str_int n
  | PStr s => s
  | PFloat _ | PList _ | PDict _ => str_of_value v
  end.

(** [str(e)] for a caught exception. *)
Definition py_exc_str (e : exc) : string :=
  match e with
  | Py (Requests r) => exc_msg r
  | Py (KeyError key) => py_repr_str key
  | _ => builtin_exc_text e
  end.

Definition py_format (v : pyval) (spec : string) : IO string :=
  match format_spec v spec with
  | inl text => io_ret text
  | inr e => io_raise e
  end.

Definition py_slice_to (v : pyval) (n : Z) : IO pyval :=
  match slice_to v n with
  | inl part => io_ret part
  | inr e => io_raise e
  end.

Local Open Scope io_scope.

(** The [else] branch of each test of [demo_error_handling]. *)
Definition print_failed (result : pyval) : IO unit :=
  error <- lift (py_getitem result "error") ;;
  print ("Failed: " ++ py_str error).

Definition demo_error_handling : IO unit :=
  print ("=== Error Handling Demo ===" ++ nl) ;;;
  print "--- Test 1: Valid URL ---" ;;;
  result <- lift (safe_api_request transport
                    "https://jsonplaceholder.typicode.com/posts/1" 5) ;;
  ok <- lift (py_getitem result "success") ;;
  (if py_truth ok then
     data <- lift (py_getitem result "data") ;;
     title <- lift (py_getitem data "title") ;;
     head <- py_slice_to title 30 ;;
     print ("Success! Got post: " ++ py_str head ++ "...")
   else print_failed result) ;;;
  print (nl ++ "--- Test 2: Non-existent Resource (404) ---") ;;;
  result <- lift (safe_api_request transport
                    "https://jsonplaceholder.typicode.com/posts/99999" 5) ;;
  ok <- lift (py_getitem result "success") ;;
  (if py_truth ok then
     data <- lift (py_getitem result "data") ;;
     print ("Success! Data: " ++ py_str data)
   else print_failed result) ;;;
  print (nl ++ "--- Test 3: Invalid Domain ---") ;;;
  result <- lift (safe_api_request transport
                    "https://this-domain-does-not-exist-12345.com/api" 5) ;;
  ok <- lift (py_getitem result "success") ;;
  (if py_truth ok then print "Success!" else print_failed result) ;;;
  print (nl ++ "--- Test 4: Timeout Simulation ---") ;;;
  result <- lift (safe_api_request transport
                    "https://httpstat.us/200?sleep=5000" 1) ;;
  ok <- lift (py_getitem result "success") ;;
  (if py_truth ok then print "Success!" else print_failed result).

Definition fetch_crypto_safely : IO unit :=
  print (nl ++ "=== Safe Crypto Price Checker ===" ++ nl) ;;;
  line <- input "Enter coin (btc-bitcoin, eth-ethereum): " ;;
  let coin := str_lower (str_strip line) in
  if String.eqb coin "" then
    print "Error: Please enter a coin name."
  else
    let url := ("https://api.coinpaprika.com/v1/tickers/" ++ coin)%string in
    lift (logging INFO ("Fetching crypto price for " ++ coin)) ;;;
    result <- lift (safe_api_request transport url 5) ;;
    ok <- lift (py_getitem result "success") ;;
    if py_truth ok then
      data <- lift (py_getitem result "data") ;;
      name <- lift (py_getitem data "name") ;;
      symbol <- lift (py_getitem data "symbol") ;;
      print (nl ++ py_str name ++ " (" ++ py_str symbol ++ ")") ;;;
      quotes <- lift (py_getitem data "quotes") ;;
      usd <- lift (py_getitem quotes "USD") ;;
      price <- lift (py_getitem usd "price") ;;
      price_text <- py_format price ",.2f" ;;
      print ("Price: $" ++ price_text) ;;;
      quotes <- lift (py_getitem data "quotes") ;;
      usd <- lift (py_getitem quotes "USD") ;;
      change <- lift (py_getitem usd "percent_change_24h") ;;
      change_text <- py_format change "+.2f" ;;
      print ("24h Change: " ++ change_text ++ "%")
    else
      error <- lift (py_getitem result "error") ;;
      print (nl ++ "Error: " ++ py_str error) ;;;
      print "Tip: Try 'btc-bitcoin' or 'eth-ethereum'".

(** The statements under [try:] of [validate_json_response]. *)
Definition validate_json_body (url : string) : IO unit :=
  response <- lift (requests_get transport url 5) ;;
  lift (raise_for_status response) ;;;
  data <- lift (response_json response) ;;
  missing <- lift (missing_in ["name"; "email"; "phone"] data) ;;
  match missing with
  | _ :: _ =>
      lift (logging WARNING ("Missing fields: " ++ py_str_list missing)) ;;;
      print ("Warning: Missing fields: " ++ py_str_list missing)
  | [] =>
      lift (logging INFO "All required fields present.") ;;;
      print "All required fields present!" ;;;
      name <- lift (py_getitem data "name") ;;
      print ("Name: " ++ py_str name) ;;;
      email <- lift (py_getitem data "email") ;;
      print ("Email: " ++ py_str email) ;;;
      phone <- lift (py_getitem data "phone") ;;
      print ("Phone: " ++ py_str phone)
  end.

(** Its [except] clauses: [requests.exceptions.JSONDecodeError] first,
    then [Exception], which every exception here derives from. *)
Definition validate_json_handler (e : exc) : IO unit :=
  match e with
  | Py (Requests r) =>
      if isinstance r JSONDecodeError then
        lift (logging ERROR "Invalid JSON in response") ;;;
        print "Error: Response is not valid JSON"
      else
        lift (logging ERROR ("Unexpected error: " ++ py_exc_str e)) ;;;
        print ("Error: " ++ py_exc_str e)
  | _ =>
      lift (logging ERROR ("Unexpected error: " ++ py_exc_str e)) ;;;
      print ("Error: " ++ py_exc_str e)
  end.

Definition validate_json_response : IO unit :=
  print (nl ++ "=== JSON Validation Demo ===" ++ nl) ;;;
  let url := "https://jsonplaceholder.typicode.com/users/1" in
  lift (logging INFO ("Validating JSON response from " ++ url)) ;;;
  io_try (validate_json_body url) validate_json_handler.

Definition main : IO unit :=
  demo_error_handling ;;;
  print (nl ++ str_repeat "=" 40 ++ nl) ;;;
  validate_json_response ;;;
  print (nl ++ str_repeat "=" 40 ++ nl) ;;;
  fetch_crypto_safely.

Local Close Scope io_scope.

End Printing.

(** The message of a failed single attempt, by the class of the
    exception: the text the clauses of [safe_api_request] choose. *)
Definition failure_text (timeout : Z) (e : req_exc) : string :=
  if isinstance e ConnectionError then
    "Connection failed. Check your internet."
  else if isinstance e Timeout then
    "Request timed out after " ++ py_str_int timeout ++ " seconds."
  else if isinstance e HTTPError then
    "HTTP Error: " ++ py_str_int (match exc_response e with
                                  | Some r => status_code r
                                  | None => 0
                                  end)
  else "Request failed: " ++ exc_msg e.

(** ** Stand-ins for Python's functions on the sample runs *)

(** Whitespace among the ASCII characters, as [str.strip] sees it. *)
Definition is_space (a : ascii) : bool :=
  let n := nat_of_ascii a in
  ((9 <=? n)%nat && (n <=? 13)%nat) || ((28 <=? n)%nat && (n <=? 32)%nat).

Fixpoint lstrip (s : string) : string :=
  match s with
  | EmptyString => EmptyString
  | String a rest => if is_space a then lstrip rest else s
  end.

Fixpoint string_rev (s : string) : string :=
  match s with
  | EmptyString => EmptyString
  | String a rest => string_rev rest ++ String a EmptyString
  end.

(** [str.strip] on ASCII text. *)
Definition ascii_strip (s : string) : string :=
  string_rev (lstrip (string_rev (lstrip s))).

Definition ascii_lower_char (a : ascii) : ascii :=
  let n := nat_of_ascii a in
  if ((65 <=? n)%nat && (n <=? 90)%nat)%bool then ascii_of_nat (n + 32) else a.

(** [str.lower] on ASCII text. *)
Fixpoint ascii_lower (s : string) : string :=
  match s with
  | EmptyString => EmptyString
  | String a rest => String (ascii_lower_char a) (ascii_lower rest)
  end.

(** [format] with the two specifications of the program, on integers
    from 0 to 999, where no thousands separator appears. *)
Definition small_int_format (v : pyval) (spec : string) : string + exc :=
  match v with
  | PInt n =>
      if (0 <=? n) && (n <? 1000) then
        if String.eqb spec ",.2f" then inl (py_str_int n ++ ".00")
        else if String.eqb spec "+.2f" then inl ("+" ++ py_str_int n ++ ".00")
        else inr ValueError
      else inr ValueError
  | _ => inr (Py TypeError)
  end.

(** [value[:n]] on ASCII text and on lists. *)
Definition ascii_slice_to (v : pyval) (n : Z) : pyval + exc :=
  match v with
  | PStr s => inl (PStr (substring 0 (Z.to_nat n) s))
  | PList items => inl (PList (firstn (Z.to_nat n) items))
  | _ => inr (Py TypeError)
  end.

(** Texts that stand for [str] of the values and exceptions the sample
    runs do not print. *)
Definition some_value_text (v : pyval) : string := "<value>".

Definition some_exc_text (e : exc) : string := "<exception>".

(** A ticker as the price service answers. *)
Definition ticker_btc : pyval :=
  PDict [("id", PStr "btc-bitcoin"); ("name", PStr "Bitcoin");
         ("symbol", PStr "BTC");
         ("quotes", PDict [("USD", PDict [("price", PInt 1);
                                          ("percent_change_24h", PInt 2)])])].

Definition answers_ticker : nat -> string -> Z -> get_outcome :=
  fun _ url _ =>
    GetReturns {| status_code := 200; reason := "OK"; resp_url := url;
                  body_json := inl ticker_btc |}.

(** A user profile without a phone entry. *)
Definition answers_user : nat -> string -> Z -> get_outcome :=
  fun _ url _ =>
    GetReturns {| status_code := 200; reason := "OK"; resp_url := url;
                  body_json := inl (PDict [("name", PStr "Leanne Graham");
                                           ("email", PStr "leanne@example.org")]) |}.

Definition console0 (lines : list string) : console :=
  {| con_world := world0; stdout := ""; stdin := lines |}.

(** ** Exceptions outside the requests hierarchy *)

(** The outcome of one [requests.get] in full: one of the outcomes
    [get_outcome] lists, or an exception of a class outside
    [requests.exceptions], which the library lets through: the ValueError
    for a timeout of zero or less, urllib3's LocationParseError for a host
    label of more than 63 characters.  Such an exception is given by the
    name of its class and by [str(e)]. *)
Inductive any_outcome : Type :=
| GetEscapes (class_name text : string)
| GetListed (o : get_outcome).

(** The request functions once more, word for word, on a transport
    with these outcomes. *)
Module Full.

Section Executor.

Variable transport : nat -> string -> Z -> any_outcome.

Definition requests_get (url : string) (timeout : Z) : M response :=
  fun w =>
    let w' := {| calls := S (calls w); slept := slept w; log := log w |} in
    match transport (calls w) url timeout with
    | GetEscapes class_name text =>
        (Raise (OtherException class_name text), w')
    | GetListed (GetRaises s msg) =>
        (Raise (Requests {| exc_cls := class_of_send_error s;
                            exc_msg := msg;
                            exc_response := None |}), w')
    | GetListed (GetReturns r) => (Ret r, w')
    end.

Definition try_body (url : string) (timeout : Z) : M pyval :=
  response <- requests_get url timeout ;;
  raise_for_status response ;;;
  logging INFO "Request successful!" ;;;
  data <- response_json response ;;
  ret (PDict [("success", PBool true); ("data", data)]).

Definition safe_api_request (url : string) (timeout : Z) : M pyval :=
  logging INFO ("Requesting URL: " ++ url) ;;;
  try_except (try_body url timeout) (safe_api_request_handler timeout).

Fixpoint retry_loop (url : string) (timeout retries : Z) (attempts : list Z)
  : M pyval :=
  match attempts with
  | [] => ret PNone
  | attempt :: rest =>
      logging INFO ("Attempt " ++ py_str_int attempt ++ " of "
                      ++ py_str_int retries ++ " → Requesting " ++ url) ;;;
      try_except (try_body url timeout)
        (fun exc =>
           match exc with
           | Requests e =>
               if isinstance e ConnectionError || isinstance e Timeout
                  || isinstance e HTTPError || isinstance e RequestException
               then
                 logging ERROR ("Error on attempt " ++ py_str_int attempt
                                  ++ ": " ++ exc_msg e) ;;;
                 if attempt =? retries then
                   logging CRITICAL "All retries failed — returning error." ;;;
                   ret (failure ("Failed after " ++ py_str_int retries
                                   ++ " attempts: " ++ exc_msg e))
                 else
                   logging WARNING "Retrying in 1 second..." ;;;
                   time_sleep 1 ;;;
                   retry_loop url timeout retries rest
               else raise exc
           | _ => raise exc
           end)
  end.

Definition safe_api_request_with_retry (url : string) (timeout retries : Z)
  : M pyval :=
  retry_loop url timeout retries (py_range 1 (retries + 1)).

End Executor.

End Full.

(** A transport whose outcomes are all listed ones. *)
Definition listed (transport : nat -> string -> Z -> get_outcome)
  : nat -> string -> Z -> any_outcome :=
  fun n url timeout => GetListed (transport n url timeout).

(** The library refuses a timeout of zero or less with a ValueError
    before it sends anything; otherwise the request is answered. *)
Definition rejects_timeout : nat -> string -> Z -> any_outcome :=
  fun _ url timeout =>
    if timeout <=? 0 then
      GetEscapes "ValueError"
        ("Attempted to set connect timeout to " ++ py_str_int timeout
           ++ ", but the timeout cannot be set to a value less than or equal to 0.")
    else GetListed (GetReturns (response_200 url)).


(** ** Strings *)

Lemma prefix_append (s t : string) : String.prefix s (s ++ t) = true.
Proof.
  induction s as [|c s IH]; simpl.
  - now destruct t.
  - destruct (ascii_dec c c) as [_|ne]; [exact IH | now elim ne].
Qed.

Lemma is_substring_of_prefix (part hay : string) :
  String.prefix part hay = true -> is_substring part hay = true.
Proof. destruct hay; simpl; intros ->; reflexivity. Qed.

Lemma is_substring_complete (hay part : string) :
  mentions hay part -> is_substring part hay = true.
Proof.
  intros (pre & post & ->).
  induction pre as [|c pre IH].
  - change ("" ++ part ++ post) with (part ++ post).
    apply is_substring_of_prefix, prefix_append.
  - change ((String c pre) ++ part ++ post) with (String c (pre ++ part ++ post)).
    simpl. rewrite IH. apply orb_true_r.
Qed.

Lemma append_empty_r (s : string) : s ++ "" = s.
Proof. induction s as [|c s IH]; simpl; congruence. Qed.

Lemma append_assoc (a b c : string) : (a ++ b) ++ c = a ++ b ++ c.
Proof. induction a as [|x a IH]; simpl; congruence. Qed.

Lemma mentions_inside (pre part post : string) : mentions (pre ++ part ++ post) part.
Proof. now exists pre, post. Qed.

Lemma mentions_tail (pre part : string) : mentions (pre ++ part) part.
Proof. exists pre, "". now rewrite append_empty_r. Qed.

Lemma mentions_after (pre msg part : string) :
  mentions msg part -> mentions (pre ++ msg) part.
Proof.
  intros (a & b & ->). exists (pre ++ a), b. now rewrite append_assoc.
Qed.

(** ** The exception hierarchy *)

Lemma issubclass_RequestException (c : exc_class) :
  issubclass c RequestException = true.
Proof. destruct c; reflexivity. Qed.

Lemma send_error_not_HTTPError (s : send_error) :
  issubclass (class_of_send_error s) HTTPError = false.
Proof. destruct s; reflexivity. Qed.

(** ** The validator *)

Ltac run_validator :=
  unfold validate_crypto_data, missing_fields, required_fields, bind, ret,
    raise, logging, py_in, py_getitem, dict_has; simpl.

(** The validator on a mapping without a quotes entry. *)
Lemma validate_no_quotes (d : list (string * pyval)) (w : world) :
  dict_get d "quotes" = None ->
  fst (validate_crypto_data (PDict d) w)
  = Ret (invalid_result "'quotes' field missing").
Proof. intros H. run_validator. rewrite H. reflexivity. Qed.

(** The validator on a mapping whose quotes entry is a mapping without
    a USD entry. *)
Lemma validate_no_usd (d q : list (string * pyval)) (w : world) :
  dict_get d "quotes" = Some (PDict q) ->
  dict_get q "USD" = None ->
  fst (validate_crypto_data (PDict d) w)
  = Ret (invalid_result "'USD' field missing inside quotes").
Proof. intros Hq Hu. run_validator. rewrite Hq. simpl. rewrite Hu. reflexivity. Qed.

(** The validator on a payload with three levels of mappings: the
    fields it reports are all the required ones the USD entry lacks. *)
Lemma validate_three_levels (d q u : list (string * pyval)) (w : world) :
  dict_get d "quotes" = Some (PDict q) ->
  dict_get q "USD" = Some (PDict u) ->
  fst (validate_crypto_data (PDict d) w)
  = Ret (match filter (fun f => negb (dict_has u f)) required_fields with
         | [] => valid_result
         | missing => invalid_result ("Missing fields inside USD: "
                                        ++ py_str_list missing)
         end).
Proof.
  intros Hq Hu. run_validator. rewrite Hq. simpl. rewrite Hu. simpl.
  destruct (dict_get u "price"), (dict_get u "percent_change_24h"); reflexivity.
Qed.

Example validate_ok :
  fst (validate_crypto_data
         (PDict [("quotes", PDict [("USD", PDict [("price", PFloat (50000 # 1));
                                                   ("percent_change_24h", PFloat (5 # 2))])])])
         world0)
  = Ret (PDict [("valid", PBool true)]).
Proof. reflexivity. Qed.

(** C2, amended.  For every payload whose entry at quotes.USD, when it
    has one, is a mapping, the validator returns the valid result if and
    only if the payload has a quotes mapping with a USD mapping holding
    both price and percent_change_24h; and on three levels of mappings
    where required fields are absent, the reason is the text
    "Missing fields inside USD: " followed by the list of all the missing
    required fields, in the order price, percent_change_24h. *)
Theorem validate_crypto_data_on_mappings (data : pyval) (w : world) :
  usd_is_mapping data = true ->
  (fst (validate_crypto_data data w) = Ret valid_result
   <-> has_quotes_usd_fields data = true)
  /\ (forall d q u,
        data = PDict d ->
        dict_get d "quotes" = Some (PDict q) ->
        dict_get q "USD" = Some (PDict u) ->
        has_quotes_usd_fields data = false ->
        let missing := filter (fun f => negb (dict_has u f)) required_fields in
        missing <> [] /\
        fst (validate_crypto_data data w)
        = Ret (invalid_result ("Missing fields inside USD: "
                                 ++ py_str_list missing))).
Proof.
  intros Hmap. split.
  - destruct data as [| | | | s | items | d];
      try (run_validator; split; discriminate).
    + run_validator. destruct (is_substring "quotes" s); simpl; split; discriminate.
    + run_validator.
      destruct (existsb _ items); simpl; split; discriminate.
    + simpl in *. destruct (dict_get d "quotes") as [quotes|] eqn:Hq.
      2:{ rewrite (validate_no_quotes d w Hq). split; discriminate. }
      destruct quotes as [| | | | s | items | q];
        try (run_validator; rewrite Hq; simpl; split; discriminate).
      * run_validator. rewrite Hq. simpl.
        destruct (is_substring "USD" s); simpl; split; discriminate.
      * run_validator. rewrite Hq. simpl.
        destruct (existsb _ items); simpl; split; discriminate.
      * destruct (dict_get q "USD") as [usd|] eqn:Hu.
        2:{ rewrite (validate_no_usd d q w Hq Hu). split; discriminate. }
        destruct usd as [| | | | | | u]; try discriminate.
        rewrite (validate_three_levels d q u w Hq Hu).
        unfold required_fields, dict_has. simpl.
        destruct (dict_get u "price"), (dict_get u "percent_change_24h");
          simpl; split; (reflexivity || discriminate).
  - intros d q u -> Hq Hu Hno missing. subst missing.
    rewrite (validate_three_levels d q u w Hq Hu).
    simpl in Hno. rewrite Hq, Hu in Hno.
    unfold required_fields, dict_has in *. simpl.
    destruct (dict_get u "price"), (dict_get u "percent_change_24h");
      simpl in *; try discriminate; split; (reflexivity || discriminate).
Qed.

(** C2, the claim as stated fails: a USD entry that is a list of the two
    field names is reported valid, although it is no mapping with the keys
    price and percent_change_24h. *)
Lemma validate_crypto_data_list_usd_valid :
  let data := PDict [("quotes",
                PDict [("USD", PList [PStr "price"; PStr "percent_change_24h"])])] in
  fst (validate_crypto_data data world0) = Ret valid_result
  /\ has_quotes_usd_fields data = false.
Proof. split; reflexivity. Qed.

Lemma validate_crypto_data_on_mappings_witness :
  let data := PDict [("quotes",
                PDict [("USD", PDict [("price", PFloat (50000 # 1));
                                       ("percent_change_24h", PFloat (5 # 2))])])] in
  usd_is_mapping data = true /\
  (fst (validate_crypto_data data world0) = Ret valid_result
   <-> has_quotes_usd_fields data = true).
Proof.
  split; [reflexivity|].
  apply (validate_crypto_data_on_mappings _ world0). reflexivity.
Defined.

(** C8, amended.  On the empty payload the validator returns the
    invalid result with the reason 'quotes' field missing, and on a
    payload whose quotes entry is an empty mapping the reason
    'USD' field missing inside quotes; both reasons carry the field name
    in single quotes. *)
Theorem validate_crypto_data_first_missing_tier (w : world) :
  fst (validate_crypto_data (PDict []) w)
  = Ret (invalid_result "'quotes' field missing")
  /\ fst (validate_crypto_data (PDict [("quotes", PDict [])]) w)
     = Ret (invalid_result "'USD' field missing inside quotes").
Proof. split; reflexivity. Qed.

(** C8, the claim as stated fails: the reasons are not the texts without
    the single quotes. *)
Lemma validate_crypto_data_reason_unquoted :
  fst (validate_crypto_data (PDict []) world0)
  <> Ret (invalid_result "quotes field missing")
  /\ fst (validate_crypto_data (PDict [("quotes", PDict [])]) world0)
     <> Ret (invalid_result "USD field missing inside quotes").
Proof. split; discriminate. Qed.

(** C10.  The validator raises TypeError on the payloads
    {"quotes": 5} and {"quotes": {"USD": 5}}; and whenever it returns on a
    mapping with a quotes entry, that entry supports membership tests, and
    so does the entry at USD when quotes is a mapping that has one. *)
Theorem validate_crypto_data_raises_TypeError :
  (forall w, fst (validate_crypto_data (PDict [("quotes", PInt 5)]) w)
             = Raise TypeError)
  /\ (forall w, fst (validate_crypto_data
                       (PDict [("quotes", PDict [("USD", PInt 5)])]) w)
                = Raise TypeError)
  /\ (forall d quotes w v,
        dict_get d "quotes" = Some quotes ->
        fst (validate_crypto_data (PDict d) w) = Ret v ->
        supports_membership quotes = true
        /\ forall q usd, quotes = PDict q -> dict_get q "USD" = Some usd ->
                         supports_membership usd = true).
Proof.
  split; [reflexivity|]. split; [reflexivity|].
  intros d quotes w v Hq. run_validator. rewrite Hq. simpl.
  destruct quotes as [| | | | s | items | q]; simpl; try discriminate.
  - intros _. split; [reflexivity|]. discriminate.
  - intros _. split; [reflexivity|]. discriminate.
  - intros H. split; [reflexivity|]. intros q' usd [= <-] Hu.
    rewrite Hu in H. simpl in H.
    destruct usd; simpl in *; try discriminate; reflexivity.
Qed.

Lemma validate_crypto_data_raises_TypeError_witness :
  supports_membership (PDict [("USD", PDict [])]) = true.
Proof.
  apply (proj1 (proj2 (proj2 validate_crypto_data_raises_TypeError)
                  [("quotes", PDict [("USD", PDict [])])]
                  (PDict [("USD", PDict [])]) world0
                  (invalid_result ("Missing fields inside USD: "
                      ++ py_str_list ["price"; "percent_change_24h"]))
                  eq_refl eq_refl)).
Defined.

(** ** One attempt *)

Section ExecutorFacts.

Variable transport : nat -> string -> Z -> get_outcome.

(** The statements under [try:] issue one GET, sleep nothing, and end as
    [attempt_outcome] says. *)
Lemma try_body_run (url : string) (timeout : Z) (w : world) :
  exists w',
    try_body transport url timeout w
    = (match attempt_outcome (transport (calls w) url timeout) with
       | inl data => Ret (success data)
       | inr e => Raise (Requests e)
       end, w')
    /\ calls w' = S (calls w) /\ slept w' = slept w.
Proof.
  unfold try_body, bind, requests_get, raise_for_status, response_json,
    attempt_outcome, logging, ret, raise.
  destruct (transport (calls w) url timeout) as [s msg | r]; simpl.
  - eexists; split; [reflexivity | split; reflexivity].
  - destruct (http_error_msg r); simpl.
    + destruct (body_json r); simpl;
        eexists; (split; [reflexivity | split; reflexivity]).
    + eexists; split; [reflexivity | split; reflexivity].
Qed.

(** Every exception of an attempt is caught by the clause of the retry
    loop. *)
Lemma retry_clause_catches (e : req_exc) :
  isinstance e ConnectionError || isinstance e Timeout
  || isinstance e HTTPError || isinstance e RequestException = true.
Proof.
  unfold isinstance. rewrite issubclass_RequestException. apply orb_true_r.
Qed.

(** An exception of an attempt carries a response when it is an
    [HTTPError]. *)
Lemma attempt_outcome_HTTPError (o : get_outcome) (e : req_exc) :
  attempt_outcome o = inr e ->
  isinstance e HTTPError = true ->
  exists r, exc_response e = Some r /\ o = GetReturns r
            /\ http_error_msg r <> "".
Proof.
  unfold attempt_outcome, isinstance. destruct o as [s msg | r].
  - intros [= <-]. simpl. now rewrite send_error_not_HTTPError.
  - destruct (http_error_msg r) eqn:E.
    + destruct (body_json r); [discriminate|]. intros [= <-] H.
      cbv in H. discriminate H.
    + intros [= <-] _. exists r. repeat split. rewrite E. discriminate.
Qed.

(** [safe_api_request] turns every outcome of the attempt into a result. *)
Lemma safe_api_request_run (url : string) (timeout : Z) (w : world) :
  exists v w',
    safe_api_request transport url timeout w = (Ret v, w')
    /\ calls w' = S (calls w) /\ slept w' = slept w
    /\ match attempt_outcome (transport (calls w) url timeout) with
       | inl data => v = success data
       | inr e =>
           v = failure
                 (if isinstance e ConnectionError then
                    "Connection failed. Check your internet."
                  else if isinstance e Timeout then
                    "Request timed out after " ++ py_str_int timeout ++ " seconds."
                  else if isinstance e HTTPError then
                    "HTTP Error: "
                      ++ py_str_int (match exc_response e with
                                     | Some r => status_code r
                                     | None => 0
                                     end)
                  else "Request failed: " ++ exc_msg e)
       end.
Proof.
  unfold safe_api_request, bind, try_except, logging.
  cbv beta iota.
  match goal with
  | |- context [try_body transport url timeout ?w1] =>
      destruct (try_body_run url timeout w1) as (w' & Hrun & Hc & Hs)
  end.
  rewrite Hrun. simpl calls in *. simpl slept in *.
  destruct (attempt_outcome (transport (calls w) url timeout)) as [data | e] eqn:Ho.
  - exists (success data), w'. repeat split; assumption.
  - unfold safe_api_request_handler.
    destruct (isinstance e ConnectionError) eqn:Hconn.
    { eexists; eexists; split; [reflexivity|]. simpl. repeat split; assumption. }
    destruct (isinstance e Timeout) eqn:Htime.
    { eexists; eexists; split; [reflexivity|]. simpl. repeat split; assumption. }
    destruct (isinstance e HTTPError) eqn:Hhttp.
    { destruct (attempt_outcome_HTTPError _ _ Ho Hhttp) as (r & Hr & _).
      unfold exc_status_code, bind, ret, logging. rewrite Hr.
      eexists; eexists; split; [reflexivity|]. simpl. repeat split; assumption. }
    unfold isinstance in *. rewrite issubclass_RequestException.
    eexists; eexists; split; [reflexivity|]. simpl. repeat split; assumption.
Qed.

(** ** The retry loop *)

Lemma py_range_nil (lo hi : Z) : hi <= lo -> py_range lo hi = [].
Proof.
  intros H. unfold py_range.
  replace (Z.to_nat (hi - lo)) with O by lia. reflexivity.
Qed.

Lemma py_range_cons (lo hi : Z) :
  lo < hi -> py_range lo hi = lo :: py_range (lo + 1) hi.
Proof.
  intros H. unfold py_range.
  replace (Z.to_nat (hi - lo)) with (S (Z.to_nat (hi - (lo + 1)))) by lia.
  simpl seq. simpl map. f_equal; [lia|].
  rewrite <- seq_shift, map_map. apply map_ext. intros i. lia.
Qed.

Lemma retry_loop_success (url : string) (timeout retries attempt : Z)
      (rest : list Z) (w : world) (data : pyval) :
  attempt_outcome (transport (calls w) url timeout) = inl data ->
  exists w',
    retry_loop transport url timeout retries (attempt :: rest) w
    = (Ret (success data), w')
    /\ calls w' = S (calls w) /\ slept w' = slept w.
Proof.
  intros Ho. simpl retry_loop. unfold bind, try_except, logging.
  cbv beta iota.
  match goal with
  | |- context [try_body transport url timeout ?w1] =>
      destruct (try_body_run url timeout w1) as (w' & Hrun & Hc & Hs)
  end.
  rewrite Hrun. simpl calls in *. simpl slept in *. rewrite Ho.
  exists w'. repeat split; assumption.
Qed.

Lemma retry_loop_last_failure (url : string) (timeout retries : Z)
      (rest : list Z) (w : world) (e : req_exc) :
  attempt_outcome (transport (calls w) url timeout) = inr e ->
  exists w',
    retry_loop transport url timeout retries (retries :: rest) w
    = (Ret (failure ("Failed after " ++ py_str_int retries ++ " attempts: "
                       ++ exc_msg e)), w')
    /\ calls w' = S (calls w) /\ slept w' = slept w.
Proof.
  intros Ho. simpl retry_loop. unfold bind, try_except, logging.
  cbv beta iota.
  match goal with
  | |- context [try_body transport url timeout ?w1] =>
      destruct (try_body_run url timeout w1) as (w' & Hrun & Hc & Hs)
  end.
  rewrite Hrun. simpl calls in *. simpl slept in *. rewrite Ho.
  rewrite retry_clause_catches, Z.eqb_refl.
  eexists; split; [reflexivity|]. simpl. split; assumption.
Qed.

Lemma retry_loop_failure_retries (url : string) (timeout retries attempt : Z)
      (rest : list Z) (w : world) (e : req_exc) :
  attempt_outcome (transport (calls w) url timeout) = inr e ->
  attempt <> retries ->
  exists w1,
    retry_loop transport url timeout retries (attempt :: rest) w
    = retry_loop transport url timeout retries rest w1
    /\ calls w1 = S (calls w) /\ slept w1 = slept w + 1.
Proof.
  intros Ho Hne. simpl retry_loop. unfold bind, try_except, logging, time_sleep.
  cbv beta iota.
  match goal with
  | |- context [try_body transport url timeout ?w1] =>
      destruct (try_body_run url timeout w1) as (w' & Hrun & Hc & Hs)
  end.
  rewrite Hrun. simpl calls in *. simpl slept in *. rewrite Ho.
  rewrite retry_clause_catches.
  destruct (Z.eqb_spec attempt retries) as [Heq|_]; [contradiction|].
  eexists; split; [reflexivity|]. simpl. split; congruence.
Qed.

(** The loop runs through a prefix of failing attempts, one GET and one
    second of sleep each. *)
Lemma retry_loop_skips_failures (url : string) (timeout retries : Z) (n : nat) :
  forall (lo : Z) (w : world),
    lo + Z.of_nat n <= retries ->
    (forall i, (i < n)%nat ->
       exists e, attempt_outcome (transport (calls w + i)%nat url timeout) = inr e) ->
    exists w1,
      retry_loop transport url timeout retries (py_range lo (retries + 1)) w
      = retry_loop transport url timeout retries
          (py_range (lo + Z.of_nat n) (retries + 1)) w1
      /\ calls w1 = (calls w + n)%nat /\ slept w1 = slept w + Z.of_nat n.
Proof.
  induction n as [|n IH]; intros lo w Hle Hfail.
  - exists w. rewrite Z.add_0_r, Nat.add_0_r, Z.add_0_r. auto.
  - rewrite (py_range_cons lo (retries + 1)) by lia.
    destruct (Hfail O ltac:(lia)) as (e & He). rewrite Nat.add_0_r in He.
    destruct (retry_loop_failure_retries url timeout retries lo
                (py_range (lo + 1) (retries + 1)) w e He ltac:(lia))
      as (w1 & Hstep & Hc1 & Hs1).
    destruct (IH (lo + 1) w1 ltac:(lia)) as (w2 & Hrest & Hc2 & Hs2).
    { intros i Hi. destruct (Hfail (S i) ltac:(lia)) as (e' & He').
      exists e'. rewrite Hc1.
      replace (S (calls w) + i)%nat with (calls w + S i)%nat by lia. exact He'. }
    exists w2. rewrite Hstep, Hrest.
    replace (lo + 1 + Z.of_nat n) with (lo + Z.of_nat (S n)) by lia.
    repeat split; lia.
Qed.

(** The loop returns whatever attempts it is given. *)
Lemma retry_loop_returns (url : string) (timeout retries : Z) (attempts : list Z) :
  forall w, exists v w',
    retry_loop transport url timeout retries attempts w = (Ret v, w')
    /\ (v = PNone \/ result_shape v).
Proof.
  induction attempts as [|attempt rest IH]; intros w.
  - exists PNone, w. split; [reflexivity | now left].
  - destruct (attempt_outcome (transport (calls w) url timeout)) as [data|e] eqn:Ho.
    + destruct (retry_loop_success url timeout retries attempt rest w data Ho)
        as (w' & Hrun & _).
      exists (success data), w'. split; [exact Hrun|]. right.
      exists [("success", PBool true); ("data", data)], true.
      repeat split; discriminate.
    + destruct (Z.eq_dec attempt retries) as [->|Hne].
      * destruct (retry_loop_last_failure url timeout retries rest w e Ho)
          as (w' & Hrun & _).
        eexists; exists w'. split; [exact Hrun|]. right.
        eexists; exists false. repeat split; discriminate.
      * destruct (retry_loop_failure_retries url timeout retries attempt rest w e
                    Ho Hne) as (w1 & Hstep & _).
        rewrite Hstep. apply IH.
Qed.

End ExecutorFacts.

(** ** Status lines *)

Lemma append_nonempty (a : string) (c : ascii) (t : string) :
  a ++ String c t <> "".
Proof. destruct a; discriminate. Qed.

Lemma http_error_msg_passes (r : response) :
  status_code r < 400 \/ 600 <= status_code r -> http_error_msg r = "".
Proof.
  intros H. unfold http_error_msg.
  destruct (Z.leb_spec 400 (status_code r)), (Z.ltb_spec (status_code r) 500),
    (Z.leb_spec 500 (status_code r)), (Z.ltb_spec (status_code r) 600);
    simpl; try reflexivity; lia.
Qed.

Lemma http_error_msg_raises (r : response) :
  400 <= status_code r < 600 -> http_error_msg r <> "".
Proof.
  intros H. unfold http_error_msg.
  destruct (Z.leb_spec 400 (status_code r)), (Z.ltb_spec (status_code r) 500),
    (Z.leb_spec 500 (status_code r)), (Z.ltb_spec (status_code r) 600);
    simpl; try lia; apply append_nonempty.
Qed.

Section ExecutorClaims.

Variable transport : nat -> string -> Z -> get_outcome.

(** A response that passes the status check and decodes is the success
    of the attempt. *)
Lemma attempt_outcome_decoded (r : response) (data : pyval) :
  status_code r < 400 \/ 600 <= status_code r ->
  body_json r = inl data ->
  attempt_outcome (GetReturns r) = inl data.
Proof.
  intros Hs Hb. unfold attempt_outcome.
  now rewrite (http_error_msg_passes r Hs), Hb.
Qed.

(** A response with an error status ends the attempt with an
    [HTTPError] that carries it, whatever its body. *)
Lemma attempt_outcome_error_status (r : response) :
  400 <= status_code r < 600 ->
  attempt_outcome (GetReturns r)
  = inr {| exc_cls := HTTPError; exc_msg := http_error_msg r;
           exc_response := Some r |}.
Proof.
  intros Hs. unfold attempt_outcome.
  pose proof (http_error_msg_raises r Hs) as Hne.
  destruct (http_error_msg r); [now elim Hne | reflexivity].
Qed.

Lemma safe_api_request_error_status (url : string) (timeout : Z) (w : world)
      (r : response) :
  transport (calls w) url timeout = GetReturns r ->
  400 <= status_code r < 600 ->
  fst (safe_api_request transport url timeout w)
  = Ret (failure ("HTTP Error: " ++ py_str_int (status_code r))).
Proof.
  intros Ht Hs.
  destruct (safe_api_request_run transport url timeout w) as (v & w' & Hrun & _ & _ & Hv).
  rewrite Ht, (attempt_outcome_error_status r Hs) in Hv.
  rewrite Hrun. simpl. now subst v.
Qed.

(** C1.  The code at a retry count of zero or less: the loop has no
    attempt to run, so the function falls off its end and returns None,
    leaving the world as it was (no request, no sleep, no log record).
    Every other path of the function returns a success or failure
    mapping, as the claim requires here too; the code misses this case. *)
Theorem retry_nonpositive_returns_None (url : string) (timeout retries : Z)
        (w : world) :
  retries <= 0 ->
  safe_api_request_with_retry transport url timeout retries w = (Ret PNone, w).
Proof.
  intros H. unfold safe_api_request_with_retry.
  rewrite py_range_nil by lia. reflexivity.
Qed.

(** C3.  When every one of the N attempts fails, N positive, the
    retrying execution issues exactly N requests and returns the failure
    whose message is "Failed after N attempts: " followed by the message
    of the exception of the last attempt; the message mentions N and that
    message. *)
Theorem retry_all_attempts_fail (url : string) (timeout retries : Z) (w : world) :
  0 < retries ->
  (forall i, (i < Z.to_nat retries)%nat ->
     exists e, attempt_outcome (transport (calls w + i)%nat url timeout) = inr e) ->
  exists e msg w',
    attempt_outcome (transport (calls w + (Z.to_nat retries - 1))%nat url timeout)
    = inr e
    /\ msg = "Failed after " ++ py_str_int retries ++ " attempts: " ++ exc_msg e
    /\ safe_api_request_with_retry transport url timeout retries w
       = (Ret (failure msg), w')
    /\ calls w' = (calls w + Z.to_nat retries)%nat
    /\ mentions msg (py_str_int retries)
    /\ mentions msg (exc_msg e).
Proof.
  intros Hpos Hfail. unfold safe_api_request_with_retry.
  destruct (retry_loop_skips_failures transport url timeout retries
              (Z.to_nat retries - 1) 1 w ltac:(lia))
    as (w1 & Hskip & Hc1 & _).
  { intros i Hi. apply Hfail. lia. }
  replace (1 + Z.of_nat (Z.to_nat retries - 1)) with retries in Hskip by lia.
  rewrite (py_range_cons retries (retries + 1)) in Hskip by lia.
  destruct (Hfail (Z.to_nat retries - 1)%nat ltac:(lia)) as (e & He).
  pose proof He as He1. rewrite <- Hc1 in He1.
  destruct (retry_loop_last_failure transport url timeout retries
              (py_range (retries + 1) (retries + 1)) w1 e He1)
    as (w' & Hlast & Hc' & _).
  exists e, ("Failed after " ++ py_str_int retries ++ " attempts: " ++ exc_msg e), w'.
  split; [exact He|]. split; [reflexivity|].
  split; [now rewrite Hskip|].
  split; [lia|]. split.
  - apply mentions_inside.
  - apply mentions_after, mentions_after, mentions_tail.
Qed.

(** C4.  When the attempts before the k-th fail and the k-th, k at most
    N, gets a response that passes the status check and decodes, the
    retrying execution issues exactly k requests, sleeps between them
    only, and returns the success carrying that decoded payload. *)
Theorem retry_succeeds_on_kth_attempt (url : string) (timeout retries : Z)
        (w : world) (k : nat) (r : response) (data : pyval) :
  (1 <= k)%nat ->
  Z.of_nat k <= retries ->
  (forall i, (i < k - 1)%nat ->
     exists e, attempt_outcome (transport (calls w + i)%nat url timeout) = inr e) ->
  transport (calls w + (k - 1))%nat url timeout = GetReturns r ->
  status_code r < 400 \/ 600 <= status_code r ->
  body_json r = inl data ->
  exists w',
    safe_api_request_with_retry transport url timeout retries w
    = (Ret (success data), w')
    /\ calls w' = (calls w + k)%nat
    /\ slept w' = slept w + (Z.of_nat k - 1).
Proof.
  intros Hk Hle Hfail Ht Hs Hb. unfold safe_api_request_with_retry.
  destruct (retry_loop_skips_failures transport url timeout retries
              (k - 1) 1 w ltac:(lia) Hfail)
    as (w1 & Hskip & Hc1 & Hs1).
  replace (1 + Z.of_nat (k - 1)) with (Z.of_nat k) in Hskip by lia.
  rewrite (py_range_cons (Z.of_nat k) (retries + 1)) in Hskip by lia.
  assert (Ho : attempt_outcome (transport (calls w1) url timeout) = inl data).
  { rewrite Hc1, Ht. now apply attempt_outcome_decoded. }
  destruct (retry_loop_success transport url timeout retries (Z.of_nat k)
              (py_range (Z.of_nat k + 1) (retries + 1)) w1 data Ho)
    as (w' & Hrun & Hc' & Hs').
  exists w'. split; [now rewrite Hskip|]. split; lia.
Qed.



(** C7, amended.  When the GET raises a Timeout that is not also a
    ConnectionError, such as a read timeout, the failure message is
    "Request timed out after T seconds." for the timeout T used; and when
    the response has a status from 400 to 599, the failure message is
    "HTTP Error: " followed by the status code. *)
Theorem safe_api_request_timeout_and_status (url : string) (timeout : Z)
        (w : world) :
  (forall s msg,
     transport (calls w) url timeout = GetRaises s msg ->
     issubclass (class_of_send_error s) Timeout = true ->
     issubclass (class_of_send_error s) ConnectionError = false ->
     let text := "Request timed out after " ++ py_str_int timeout ++ " seconds." in
     fst (safe_api_request transport url timeout w) = Ret (failure text)
     /\ mentions text (py_str_int timeout))
  /\ (forall r,
        transport (calls w) url timeout = GetReturns r ->
        400 <= status_code r < 600 ->
        let text := "HTTP Error: " ++ py_str_int (status_code r) in
        fst (safe_api_request transport url timeout w) = Ret (failure text)
        /\ mentions text (py_str_int (status_code r))).
Proof.
  split.
  - intros s msg Ht Htime Hconn text.
    destruct (safe_api_request_run transport url timeout w)
      as (v & w' & Hrun & _ & _ & Hv).
    rewrite Ht in Hv. simpl in Hv. unfold isinstance in Hv. simpl exc_cls in Hv.
    rewrite Hconn, Htime in Hv. rewrite Hrun. simpl. subst v.
    split; [reflexivity | apply mentions_inside].
  - intros r Ht Hs text. split.
    + now apply safe_api_request_error_status.
    + apply mentions_tail.
Qed.

(** C9.  The value the single attempt returns is a mapping with the
    key success, with data exactly when success is true and with error
    exactly when it is false; the value the retrying execution returns is
    None or such a mapping. *)
Theorem request_results_shape (url : string) (timeout retries : Z) (w : world) :
  (exists v w',
     safe_api_request transport url timeout w = (Ret v, w') /\ result_shape v)
  /\ (exists v w',
        safe_api_request_with_retry transport url timeout retries w = (Ret v, w')
        /\ (v = PNone \/ result_shape v)).
Proof.
  split.
  - destruct (safe_api_request_run transport url timeout w)
      as (v & w' & Hrun & _ & _ & Hv).
    exists v, w'. split; [exact Hrun|].
    destruct (attempt_outcome (transport (calls w) url timeout)) as [data|e];
      subst v.
    + exists [("success", PBool true); ("data", data)], true.
      repeat split; discriminate.
    + eexists; exists false. split; [reflexivity|]. repeat split; discriminate.
  - apply retry_loop_returns.
Qed.

End ExecutorClaims.

(** ** The claims on sample runs *)

Example safe_api_request_404 :
  fst (safe_api_request answers_404 "https://example.org/posts/99999" 5 world0)
  = Ret (failure "HTTP Error: 404").
Proof. reflexivity. Qed.

(** C1 on a run: with a retry count of zero the retrying execution
    returns None, which is no failure mapping. *)
Lemma retry_zero_returns_no_failure :
  fst (safe_api_request_with_retry always_times_out "https://example.org" 5 0 world0)
  = Ret PNone
  /\ forall msg,
       fst (safe_api_request_with_retry always_times_out "https://example.org" 5 0
              world0)
       <> Ret (failure msg).
Proof. split; [reflexivity | discriminate]. Qed.

Lemma retry_nonpositive_returns_None_witness :
  -1 <= 0
  /\ safe_api_request_with_retry always_times_out "https://example.org" 5 (-1) world0
     = (Ret PNone, world0).
Proof.
  split; [lia|]. apply retry_nonpositive_returns_None. lia.
Defined.

Lemma retry_all_attempts_fail_witness :
  exists w',
    safe_api_request_with_retry always_times_out "https://example.org" 5 3 world0
    = (Ret (failure ("Failed after " ++ py_str_int 3 ++ " attempts: "
                       ++ "Read timed out.")), w')
    /\ calls w' = 3%nat.
Proof.
  destruct (retry_all_attempts_fail always_times_out "https://example.org" 5 3 world0)
    as (e & msg & w' & He & Hmsg & Hrun & Hcalls & _).
  - lia.
  - intros i _. eexists. reflexivity.
  - exists w'. injection He as <-. subst msg. split; [exact Hrun | exact Hcalls].
Defined.

Lemma retry_succeeds_on_kth_attempt_witness :
  exists w',
    safe_api_request_with_retry answers_third "https://example.org/posts/1" 5 3 world0
    = (Ret (success post_1), w')
    /\ calls w' = 3%nat /\ slept w' = 2.
Proof.
  apply (retry_succeeds_on_kth_attempt answers_third "https://example.org/posts/1"
           5 3 world0 3 (response_200 "https://example.org/posts/1") post_1).
  - lia.
  - lia.
  - intros i Hi. simpl. destruct i as [|[|i]]; [eexists; reflexivity .. | lia].
  - reflexivity.
  - left. simpl. lia.
  - reflexivity.
Defined.


(** C7, the claim as stated fails: a timeout while connecting is a
    Timeout, and the failure message, that of a connection failure, does
    not mention the timeout value; and a response with status 600 is
    reported as a success. *)
Lemma safe_api_request_connect_timeout_message :
  issubclass (class_of_send_error SendConnectTimeout) Timeout = true
  /\ fst (safe_api_request never_connects "https://example.org" 7 world0)
     = Ret (failure "Connection failed. Check your internet.")
  /\ ~ mentions "Connection failed. Check your internet." (py_str_int 7)
  /\ fst (safe_api_request answers_600 "https://example.org" 7 world0)
     = Ret (success post_1).
Proof.
  repeat split.
  intros H. apply is_substring_complete in H. discriminate H.
Qed.

Lemma safe_api_request_timeout_and_status_witness :
  fst (safe_api_request always_times_out "https://example.org" 7 world0)
  = Ret (failure ("Request timed out after " ++ py_str_int 7 ++ " seconds."))
  /\ fst (safe_api_request answers_404 "https://example.org" 7 world0)
     = Ret (failure ("HTTP Error: " ++ py_str_int 404)).
Proof.
  split.
  - apply (proj1 (safe_api_request_timeout_and_status always_times_out
                    "https://example.org" 7 world0)
             SendReadTimeout "Read timed out.");
      reflexivity.
  - apply (proj2 (safe_api_request_timeout_and_status answers_404
                    "https://example.org" 7 world0)
             {| status_code := 404; reason := "Not Found";
                resp_url := "https://example.org";
                body_json := inl (PDict []) |}).
    + reflexivity.
    + simpl. lia.
Defined.

(** ** More on the validator *)

Ltac split_validator :=
  repeat match goal with
         | |- context [dict_get ?d ?k] =>
             destruct (dict_get d k) as [[]|] eqn:?; simpl
         | |- context [is_substring ?a ?b] =>
             destruct (is_substring a b) eqn:?; simpl
         | |- context [existsb ?f ?l] =>
             destruct (existsb f l) eqn:?; simpl
         end.

(** Every run of the validator: it raises [TypeError] or returns one of
    its six results, issues no request, sleeps nothing, and adds to the
    log, first of all the record of its start. *)
Lemma validate_crypto_data_runs (data : pyval) (w : world) :
  (fst (validate_crypto_data data w) = Raise TypeError
   \/ exists v, fst (validate_crypto_data data w) = Ret v /\ In v validator_results)
  /\ calls (snd (validate_crypto_data data w)) = calls w
  /\ slept (snd (validate_crypto_data data w)) = slept w
  /\ exists records,
       log (snd (validate_crypto_data data w))
       = (log w ++ (INFO, "Validating crypto data structure...") :: records)%list.
Proof.
  unfold validator_results, valid_result, invalid_result.
  destruct data; run_validator; split_validator;
    (split; [first [left; reflexivity | right; eexists; split; [reflexivity|];
                    simpl; tauto]
            | split; [reflexivity | split; [reflexivity|]];
              rewrite <- ?app_assoc; simpl; eexists; reflexivity]).
Qed.

(** X1.  Whenever the validator returns, it returns one of six values:
    the valid result, or the invalid result with one of five reasons
    (quotes missing, USD missing, or one of the three lists of missing
    fields). *)
Theorem validate_crypto_data_results (data : pyval) (w : world) (v : pyval) :
  fst (validate_crypto_data data w) = Ret v -> In v validator_results.
Proof.
  intros H. destruct (validate_crypto_data_runs data w) as [[Hr | (v' & Hv & Hin)] _].
  - rewrite Hr in H. discriminate.
  - rewrite Hv in H. now injection H as <-.
Qed.

Lemma validate_crypto_data_results_witness :
  In (invalid_result "'quotes' field missing") validator_results.
Proof.
  apply (validate_crypto_data_results (PDict []) world0). reflexivity.
Defined.

(** X2.  The only exception the validator ends with is TypeError; in
    particular it never raises KeyError, since each subscript follows a
    membership test of the same key. *)
Theorem validate_crypto_data_raises_only_TypeError (data : pyval) (w : world)
        (e : pyexc) :
  fst (validate_crypto_data data w) = Raise e -> e = TypeError.
Proof.
  intros H. destruct (validate_crypto_data_runs data w) as [[Hr | (v' & Hv & _)] _].
  - rewrite Hr in H. now injection H.
  - rewrite Hv in H. discriminate.
Qed.

Lemma validate_crypto_data_raises_only_TypeError_witness :
  TypeError = TypeError.
Proof.
  apply (validate_crypto_data_raises_only_TypeError
           (PList [PStr "quotes"]) world0 TypeError).
  reflexivity.
Defined.

(** X3.  Whether it returns or raises, the validator issues no request
    and sleeps nothing; it keeps the log records it found and adds its
    own after them, the first being the INFO record of its start. *)
Theorem validate_crypto_data_effects (data : pyval) (w : world) :
  calls (snd (validate_crypto_data data w)) = calls w
  /\ slept (snd (validate_crypto_data data w)) = slept w
  /\ exists records,
       log (snd (validate_crypto_data data w))
       = (log w ++ (INFO, "Validating crypto data structure...") :: records)%list.
Proof. apply validate_crypto_data_runs. Qed.

(** X4.  On a payload of nested mappings (a mapping whose quotes entry,
    if any, is a mapping whose USD entry, if any, is a mapping, list or
    string) the validator returns a result and raises nothing. *)
Theorem validate_crypto_data_returns_on_nested_mappings (data : pyval) (w : world) :
  nested_mappings data = true ->
  exists v, fst (validate_crypto_data data w) = Ret v.
Proof.
  destruct data as [| | | | | | d]; try discriminate. simpl.
  destruct (dict_get d "quotes") as [quotes|] eqn:Hq.
  2:{ intros _. eexists. now apply validate_no_quotes. }
  destruct quotes as [| | | | | | q]; try discriminate.
  destruct (dict_get q "USD") as [usd|] eqn:Hu.
  2:{ intros _. eexists. now apply (validate_no_usd d q). }
  run_validator. rewrite Hq. simpl. rewrite Hu. simpl.
  destruct usd; try discriminate; intros _; simpl; split_validator;
    eexists; reflexivity.
Qed.

Lemma validate_crypto_data_returns_on_nested_mappings_witness :
  exists v,
    fst (validate_crypto_data
           (PDict [("id", PStr "btc-bitcoin");
                   ("quotes", PDict [("USD", PDict [("price", PInt 1)])])])
           world0) = Ret v.
Proof.
  apply validate_crypto_data_returns_on_nested_mappings. reflexivity.
Defined.

(** What a valid result tells about the payload. *)
Lemma validate_valid_inversion (data : pyval) (w : world) :
  fst (validate_crypto_data data w) = Ret valid_result ->
  exists d q usd,
    data = PDict d
    /\ dict_get d "quotes" = Some (PDict q)
    /\ dict_get q "USD" = Some usd
    /\ fst (py_in "price" usd w) = Ret true
    /\ fst (py_in "percent_change_24h" usd w) = Ret true
    /\ (forall u, usd = PDict u ->
          exists price change,
            dict_get u "price" = Some price
            /\ dict_get u "percent_change_24h" = Some change).
Proof.
  unfold valid_result.
  destruct data as [| | | | s | items | d]; run_validator; try discriminate.
  - destruct (is_substring "quotes" s); discriminate.
  - destruct (existsb _ items); discriminate.
  - destruct (dict_get d "quotes") as [quotes|] eqn:Hq; simpl; [|discriminate].
    destruct quotes as [| | | | s | items | q]; simpl; try discriminate.
    + destruct (is_substring "USD" s); discriminate.
    + destruct (existsb _ items); discriminate.
    + destruct (dict_get q "USD") as [usd|] eqn:Hu; simpl; [|discriminate].
      intros H. exists d, q, usd. split; [reflexivity|]. split; [exact Hq|].
      split; [exact Hu|]. clear Hu.
      destruct usd as [| | | | s | items | u]; simpl in *; try discriminate.
      * destruct (is_substring "price" s), (is_substring "percent_change_24h" s);
          try discriminate.
        repeat split. intros u' Hu'. discriminate Hu'.
      * match type of H with
        | context [if existsb ?f items then _ else _] =>
            destruct (existsb f items)
        end;
        match type of H with
        | context [if existsb ?f items then _ else _] =>
            destruct (existsb f items)
        end; try discriminate.
        repeat split. intros u' Hu'. discriminate Hu'.
      * destruct (dict_get u "price") as [price|] eqn:Hp; try discriminate.
        destruct (dict_get u "percent_change_24h") as [change|] eqn:Hc;
          try discriminate.
        repeat split. intros u' [= <-]. now exists price, change.
Qed.

(** X5.  When the validator returns the valid result, the payload is a
    mapping with a quotes mapping that has a USD entry, so that
    data["quotes"]["USD"] evaluates; both required names pass the
    membership test on that entry; and when the entry is a mapping, the
    lookups of price and percent_change_24h in it succeed. *)
Theorem validate_crypto_data_valid_guards_lookups (data : pyval) (w : world) :
  fst (validate_crypto_data data w) = Ret valid_result ->
  exists d q usd,
    data = PDict d
    /\ dict_get d "quotes" = Some (PDict q)
    /\ dict_get q "USD" = Some usd
    /\ fst (py_in "price" usd w) = Ret true
    /\ fst (py_in "percent_change_24h" usd w) = Ret true
    /\ (forall u, usd = PDict u ->
          exists price change,
            dict_get u "price" = Some price
            /\ dict_get u "percent_change_24h" = Some change).
Proof. apply validate_valid_inversion. Qed.

Lemma validate_crypto_data_valid_guards_lookups_witness :
  exists d q usd,
    PDict [("quotes", PDict [("USD", PDict [("price", PInt 1);
                                            ("percent_change_24h", PInt 2)])])]
    = PDict d
    /\ dict_get d "quotes" = Some (PDict q)
    /\ dict_get q "USD" = Some usd.
Proof.
  destruct (validate_crypto_data_valid_guards_lookups
              (PDict [("quotes", PDict [("USD", PDict [("price", PInt 1);
                                                       ("percent_change_24h", PInt 2)])])])
              world0 eq_refl)
    as (d & q & usd & Hd & Hq & Hu & _).
  now exists d, q, usd.
Defined.

(** X6.  On mappings the validator looks at the quotes entry only: two
    payloads with the same quotes entry get the same result, whatever
    their other entries and the order of their entries. *)
Theorem validate_crypto_data_reads_quotes_only
        (d1 d2 : list (string * pyval)) (w : world) :
  dict_get d1 "quotes" = dict_get d2 "quotes" ->
  fst (validate_crypto_data (PDict d1) w) = fst (validate_crypto_data (PDict d2) w).
Proof.
  intros H. run_validator. rewrite H.
  destruct (dict_get d2 "quotes") as [quotes|]; simpl; [|reflexivity].
  destruct quotes; simpl; try reflexivity; split_validator; reflexivity.
Qed.

Lemma validate_crypto_data_reads_quotes_only_witness :
  fst (validate_crypto_data
         (PDict [("name", PStr "Bitcoin"); ("quotes", PDict [])]) world0)
  = fst (validate_crypto_data (PDict [("quotes", PDict [])]) world0).
Proof.
  apply validate_crypto_data_reads_quotes_only. reflexivity.
Defined.

(** ** More on the single attempt *)

Section AttemptFacts.

Variable transport : nat -> string -> Z -> get_outcome.

Ltac run_attempt :=
  unfold safe_api_request, try_except, try_body, bind, requests_get,
    raise_for_status, response_json, logging, ret, raise; simpl.

(** X7.  Whatever the transport does, the single attempt issues exactly
    one request and never sleeps: it does no retry of its own. *)
Theorem safe_api_request_one_request (url : string) (timeout : Z) (w : world) :
  calls (snd (safe_api_request transport url timeout w)) = S (calls w)
  /\ slept (snd (safe_api_request transport url timeout w)) = slept w.
Proof.
  destruct (safe_api_request_run transport url timeout w)
    as (v & w' & Hrun & Hc & Hs & _).
  rewrite Hrun. simpl. now split.
Qed.

(** X8.  The single attempt returns the success with a payload exactly
    when the GET returned a response whose status is outside 400..599 and
    whose body decodes to that payload. *)
Theorem safe_api_request_success_iff (url : string) (timeout : Z) (w : world)
        (data : pyval) :
  fst (safe_api_request transport url timeout w) = Ret (success data)
  <-> exists r,
        transport (calls w) url timeout = GetReturns r
        /\ (status_code r < 400 \/ 600 <= status_code r)
        /\ body_json r = inl data.
Proof.
  destruct (safe_api_request_run transport url timeout w)
    as (v & w' & Hrun & _ & _ & Hv).
  rewrite Hrun. simpl. split.
  - intros [= ->].
    destruct (transport (calls w) url timeout) as [s msg | r].
    + simpl in Hv. discriminate.
    + exists r. split; [reflexivity|].
      destruct (Z.lt_ge_cases (status_code r) 400) as [Hlt|Hge]; [|
        destruct (Z.lt_ge_cases (status_code r) 600) as [Hlt6|Hge6]].
      * unfold attempt_outcome in Hv.
        rewrite (http_error_msg_passes r (or_introl Hlt)) in Hv.
        destruct (body_json r); [|discriminate].
        injection Hv as ->. split; [now left | reflexivity].
      * rewrite (attempt_outcome_error_status r (conj Hge Hlt6)) in Hv.
        discriminate.
      * unfold attempt_outcome in Hv.
        rewrite (http_error_msg_passes r (or_intror Hge6)) in Hv.
        destruct (body_json r); [|discriminate].
        injection Hv as ->. split; [now right | reflexivity].
  - intros (r & Ht & Hs & Hb).
    rewrite Ht, (attempt_outcome_decoded r data Hs Hb) in Hv. now subst v.
Qed.

(** X9.  How the single attempt reports an exception raised by the GET:
    a connection error, proxy error, SSL error or timeout while connecting
    gives the fixed connection message and drops the exception's own
    text; a read timeout gives the timed-out message; every other class
    gives "Request failed: " followed by the exception's text. *)
Theorem safe_api_request_send_error_message (url : string) (timeout : Z)
        (w : world) (s : send_error) (msg : string) :
  transport (calls w) url timeout = GetRaises s msg ->
  fst (safe_api_request transport url timeout w)
  = Ret (failure
           match s with
           | SendConnectionError | SendProxyError | SendSSLError
           | SendConnectTimeout =>
               "Connection failed. Check your internet."
           | SendReadTimeout =>
               "Request timed out after " ++ py_str_int timeout ++ " seconds."
           | _ => "Request failed: " ++ msg
           end).
Proof.
  intros Ht.
  destruct (safe_api_request_run transport url timeout w)
    as (v & w' & Hrun & _ & _ & Hv).
  rewrite Hrun, Ht in *. simpl in *. subst v. destruct s; reflexivity.
Qed.

(** X10.  The log of a single attempt: after the records it found comes
    the INFO record "Requesting URL: ..."; a success adds exactly the INFO
    record "Request successful!"; a failure ends with a record at ERROR
    level. *)
Theorem safe_api_request_log (url : string) (timeout : Z) (w : world) :
  exists v records,
    fst (safe_api_request transport url timeout w) = Ret v
    /\ log (snd (safe_api_request transport url timeout w))
       = (log w ++ (INFO, ("Requesting URL: " ++ url)%string) :: records)%list
    /\ (forall data, v = success data ->
          records = [(INFO, "Request successful!")])
    /\ (forall msg, v = failure msg ->
          exists before text, records = (before ++ [(ERROR, text)])%list).
Proof.
  run_attempt.
  destruct (transport (calls w) url timeout) as [s msg | r]; simpl.
  - unfold safe_api_request_handler, isinstance, bind, logging, ret.
    destruct s; simpl;
      (eexists; eexists; split; [reflexivity|];
       split; [rewrite <- app_assoc; reflexivity|];
       split; [discriminate|]; intros ? _; exists []; eexists; reflexivity).
  - destruct (http_error_msg r) eqn:Hm; simpl.
    + destruct (body_json r) as [data|text]; simpl.
      * eexists; eexists; split; [reflexivity|].
        split; [rewrite <- app_assoc; reflexivity|].
        split; [reflexivity | discriminate].
      * unfold safe_api_request_handler, isinstance, bind, logging, ret. simpl.
        eexists; eexists; split; [reflexivity|].
        split; [rewrite <- !app_assoc; reflexivity|].
        split; [discriminate|]. intros ? _.
        exists [(INFO, "Request successful!")]; eexists; reflexivity.
    + unfold safe_api_request_handler, isinstance, exc_status_code, bind,
        logging, ret. simpl.
      eexists; eexists; split; [reflexivity|].
      split; [rewrite <- app_assoc; reflexivity|].
      split; [discriminate|]. intros ? _. exists []; eexists; reflexivity.
Qed.

End AttemptFacts.

Lemma safe_api_request_success_iff_witness :
  fst (safe_api_request answers_600 "https://example.org" 5 world0)
  = Ret (success post_1).
Proof.
  apply safe_api_request_success_iff.
  exists {| status_code := 600; reason := "Unknown";
            resp_url := "https://example.org"; body_json := inl post_1 |}.
  split; [reflexivity|]. split; [right; simpl; lia | reflexivity].
Defined.

Lemma safe_api_request_send_error_message_witness :
  fst (safe_api_request never_connects "https://example.org" 5 world0)
  = Ret (failure "Connection failed. Check your internet.").
Proof.
  apply (safe_api_request_send_error_message never_connects "https://example.org"
           5 world0 SendConnectTimeout "Connection to example.org timed out.").
  reflexivity.
Defined.

(** ** More on the retry loop *)

Section RetryFacts.

Variable transport : nat -> string -> Z -> get_outcome.

(** The loop over the attempts lo..retries: either it stops at the first
    attempt that succeeds, or all attempts fail and it reports the last
    one. *)
Lemma retry_loop_outcomes (url : string) (timeout retries : Z) (n : nat) :
  forall (lo : Z) (w : world),
    lo + Z.of_nat n = retries ->
    (exists k data w',
       (k <= n)%nat
       /\ (forall i, (i < k)%nat -> fails_at transport url timeout w i)
       /\ attempt_outcome (transport (calls w + k)%nat url timeout) = inl data
       /\ retry_loop transport url timeout retries (py_range lo (retries + 1)) w
          = (Ret (success data), w')
       /\ calls w' = S (calls w + k) /\ slept w' = slept w + Z.of_nat k)
    \/ (exists e w',
          (forall i, (i <= n)%nat -> fails_at transport url timeout w i)
          /\ attempt_outcome (transport (calls w + n)%nat url timeout) = inr e
          /\ retry_loop transport url timeout retries (py_range lo (retries + 1)) w
             = (Ret (failure ("Failed after " ++ py_str_int retries
                                ++ " attempts: " ++ exc_msg e)), w')
          /\ calls w' = S (calls w + n) /\ slept w' = slept w + Z.of_nat n).
Proof.
  induction n as [|n IH]; intros lo w Hlo;
    rewrite (py_range_cons lo (retries + 1)) by lia;
    destruct (attempt_outcome (transport (calls w) url timeout)) as [data|e0] eqn:Ho.
  - left. exists O, data.
    destruct (retry_loop_success transport url timeout retries lo
                (py_range (lo + 1) (retries + 1)) w data Ho) as (w' & Hrun & Hc & Hs).
    exists w'. rewrite Nat.add_0_r, Z.add_0_r. repeat split; auto. intros i Hi. lia.
  - right. exists e0. replace lo with retries by lia.
    destruct (retry_loop_last_failure transport url timeout retries
                (py_range (retries + 1) (retries + 1)) w e0 Ho) as (w' & Hrun & Hc & Hs).
    exists w'. rewrite Nat.add_0_r, Z.add_0_r. repeat split; auto.
    intros i Hi. replace i with O by lia. exists e0. now rewrite Nat.add_0_r.
  - left. exists O, data.
    destruct (retry_loop_success transport url timeout retries lo
                (py_range (lo + 1) (retries + 1)) w data Ho) as (w' & Hrun & Hc & Hs).
    exists w'. rewrite Nat.add_0_r, Z.add_0_r. repeat split; auto; intros; lia.
  - destruct (retry_loop_failure_retries transport url timeout retries lo
                (py_range (lo + 1) (retries + 1)) w e0 Ho ltac:(lia))
      as (w1 & Hstep & Hc1 & Hs1).
    assert (Hshift : forall i, (calls w1 + i)%nat = (calls w + S i)%nat)
      by (intros i; lia).
    assert (Hprefix : forall k,
               (forall i, (i < k)%nat -> fails_at transport url timeout w1 i) ->
               forall i, (i < S k)%nat -> fails_at transport url timeout w i).
    { intros k Hk [|i] Hi.
      - exists e0. now rewrite Nat.add_0_r.
      - destruct (Hk i ltac:(lia)) as (e & He). exists e. now rewrite <- Hshift. }
    destruct (IH (lo + 1) w1 ltac:(lia))
      as [(k & data & w' & Hk & Hfail & Hok & Hrun & Hc & Hs)
         | (e & w' & Hfail & He & Hrun & Hc & Hs)].
    + left. exists (S k), data, w'. rewrite Hstep.
      split; [lia|]. split; [exact (Hprefix k Hfail)|].
      split; [now rewrite <- Hshift|]. split; [exact Hrun|]. split; lia.
    + right. exists e, w'. rewrite Hstep.
      split.
      { intros i Hi. apply (Hprefix (S n)); [|lia].
        intros j Hj. apply Hfail. lia. }
      split; [now rewrite <- Hshift|]. split; [exact Hrun|]. split; lia.
Qed.

(** X12.  With a positive retry count N, the retrying execution returns
    a failure only when every one of the N attempts failed; it then
    issued N requests and slept N - 1 seconds. *)
Theorem retry_failure_after_all_attempts (url : string) (timeout retries : Z)
        (w : world) (msg : string) :
  0 < retries ->
  fst (safe_api_request_with_retry transport url timeout retries w)
  = Ret (failure msg) ->
  (forall i, (i < Z.to_nat retries)%nat -> fails_at transport url timeout w i)
  /\ calls (snd (safe_api_request_with_retry transport url timeout retries w))
     = (calls w + Z.to_nat retries)%nat
  /\ slept (snd (safe_api_request_with_retry transport url timeout retries w))
     = slept w + (retries - 1).
Proof.
  intros Hpos. unfold safe_api_request_with_retry.
  destruct (retry_loop_outcomes url timeout retries (Z.to_nat retries - 1) 1 w
              ltac:(lia))
    as [(k & data & w' & _ & _ & _ & Hrun & _)
       | (e & w' & Hfail & _ & Hrun & Hc & Hs)];
    rewrite Hrun; simpl; [discriminate|].
  intros _. split; [|split; lia].
  intros i Hi. apply Hfail. lia.
Qed.

(** X13.  With a positive retry count N, a success the retrying
    execution returns carries the payload of the first attempt that
    succeeded: some attempt k among the N succeeded with it, all attempts
    before it failed, and k requests were issued. *)
Theorem retry_success_is_first_success (url : string) (timeout retries : Z)
        (w : world) (data : pyval) :
  0 < retries ->
  fst (safe_api_request_with_retry transport url timeout retries w)
  = Ret (success data) ->
  exists k,
    (k < Z.to_nat retries)%nat
    /\ (forall i, (i < k)%nat -> fails_at transport url timeout w i)
    /\ attempt_outcome (transport (calls w + k)%nat url timeout) = inl data
    /\ calls (snd (safe_api_request_with_retry transport url timeout retries w))
       = S (calls w + k).
Proof.
  intros Hpos. unfold safe_api_request_with_retry.
  destruct (retry_loop_outcomes url timeout retries (Z.to_nat retries - 1) 1 w
              ltac:(lia))
    as [(k & data' & w' & Hk & Hfail & Hok & Hrun & Hc & _)
       | (e & w' & _ & _ & Hrun & _)];
    rewrite Hrun; simpl; [|discriminate].
  intros [= <-]. exists k. split; [lia|]. auto.
Qed.

(** X14.  With a retry count of one the retrying execution succeeds
    exactly when the single attempt does, with the same payload, and it
    issues one request as well. *)
Theorem retry_once_agrees_with_single_attempt (url : string) (timeout : Z)
        (w : world) (data : pyval) :
  (fst (safe_api_request_with_retry transport url timeout 1 w) = Ret (success data)
   <-> fst (safe_api_request transport url timeout w) = Ret (success data))
  /\ calls (snd (safe_api_request_with_retry transport url timeout 1 w))
     = calls (snd (safe_api_request transport url timeout w)).
Proof.
  destruct (safe_api_request_run transport url timeout w)
    as (v & w1 & Hone & Hc1 & _ & Hv).
  unfold safe_api_request_with_retry.
  destruct (retry_loop_outcomes url timeout 1 O 1 w eq_refl)
    as [(k & data' & w' & Hk & _ & Hok & Hrun & Hc & _)
       | (e & w' & _ & He & Hrun & Hc & _)];
    rewrite Hrun, Hone; simpl.
  - replace k with O in * by lia. rewrite Nat.add_0_r in *.
    rewrite Hok in Hv. subst v. split; [tauto | lia].
  - rewrite Nat.add_0_r in *. rewrite He in Hv. subst v.
    split; [split; discriminate | lia].
Qed.


End RetryFacts.

Lemma retry_failure_after_all_attempts_witness :
  calls (snd (safe_api_request_with_retry always_times_out "https://example.org"
                5 3 world0))
  = 3%nat.
Proof.
  apply (retry_failure_after_all_attempts always_times_out "https://example.org"
           5 3 world0
           ("Failed after " ++ py_str_int 3 ++ " attempts: " ++ "Read timed out.")).
  - lia.
  - reflexivity.
Defined.

Lemma retry_success_is_first_success_witness :
  exists k,
    (k < 3)%nat
    /\ attempt_outcome (answers_third k "https://example.org/posts/1" 5)
       = inl post_1.
Proof.
  destruct (retry_success_is_first_success answers_third
              "https://example.org/posts/1" 5 3 world0 post_1 ltac:(lia) eq_refl)
    as (k & Hk & _ & Hok & _).
  exists k. split; [exact Hk | exact Hok].
Defined.


(** ** The log of the retry loop *)

Lemma count_level_app (lvl : level) (a b : list (level * string)) :
  count_level lvl (a ++ b) = (count_level lvl a + count_level lvl b)%nat.
Proof. unfold count_level. now rewrite filter_app, length_app. Qed.

Section RetryLog.

Variable transport : nat -> string -> Z -> get_outcome.

(** The statements under [try:], with the world they leave: one more
    request, and at most the INFO record of a passed status check. *)
Lemma try_body_world (url : string) (timeout : Z) (w : world) :
  exists records,
    try_body transport url timeout w
    = (match attempt_outcome (transport (calls w) url timeout) with
       | inl data => Ret (success data)
       | inr e => Raise (Requests e)
       end,
       {| calls := S (calls w); slept := slept w;
          log := (log w ++ records)%list |})
    /\ (records = [] \/ records = [(INFO, "Request successful!")]).
Proof.
  unfold try_body, bind, requests_get, raise_for_status, response_json,
    attempt_outcome, logging, ret, raise.
  destruct (transport (calls w) url timeout) as [s msg | r]; simpl.
  - exists []. rewrite app_nil_r. split; [reflexivity | now left].
  - destruct (http_error_msg r); simpl.
    + destruct (body_json r); simpl;
        (eexists; split; [reflexivity | now right]).
    + exists []. rewrite app_nil_r. split; [reflexivity | now left].
Qed.

Lemma retry_loop_log_counts (url : string) (timeout retries : Z)
      (attempts : list Z) :
  forall w,
    Z.of_nat (count_level WARNING
                (log (snd (retry_loop transport url timeout retries attempts w))))
    = Z.of_nat (count_level WARNING (log w))
      + (slept (snd (retry_loop transport url timeout retries attempts w)) - slept w)
    /\ count_level CRITICAL
         (log (snd (retry_loop transport url timeout retries attempts w)))
       = (count_level CRITICAL (log w)
          + if reports_failure
                 (fst (retry_loop transport url timeout retries attempts w))
            then 1 else 0)%nat.
Proof.
  induction attempts as [|attempt rest IH]; intros w.
  - simpl. split; lia.
  - simpl retry_loop. unfold bind, try_except, logging. cbv beta iota.
    match goal with
    | |- context [try_body transport url timeout ?w0] =>
        destruct (try_body_world url timeout w0) as (records & Hrun & Hrec)
    end.
    rewrite Hrun. simpl calls. simpl slept. simpl log.
    assert (Hw : count_level WARNING records = O)
      by (destruct Hrec as [-> | ->]; reflexivity).
    assert (Hc : count_level CRITICAL records = O)
      by (destruct Hrec as [-> | ->]; reflexivity).
    destruct (attempt_outcome (transport (calls w) url timeout)) as [data|e].
    + simpl. rewrite !count_level_app, Hw, Hc.
        unfold count_level. simpl. split; lia.
    + rewrite retry_clause_catches. destruct (attempt =? retries).
      * simpl. rewrite !count_level_app, Hw, Hc.
        unfold count_level. simpl. split; lia.
      * unfold time_sleep. cbv beta iota.
        match goal with
        | |- context [retry_loop transport url timeout retries rest ?w1] =>
            destruct (IH w1) as (IHw & IHc)
        end.
        rewrite IHw, IHc. simpl calls. simpl slept. simpl log.
        rewrite !count_level_app, Hw, Hc.
        unfold count_level. simpl. split; lia.
Qed.

(** X16.  The log of the retrying execution gains one WARNING record for
    each second it sleeps, and one CRITICAL record exactly when the run
    returns a failure. *)
Theorem retry_log_warnings_and_critical (url : string) (timeout retries : Z)
        (w : world) :
  Z.of_nat (count_level WARNING
              (log (snd (safe_api_request_with_retry transport url timeout retries w))))
  = Z.of_nat (count_level WARNING (log w))
    + (slept (snd (safe_api_request_with_retry transport url timeout retries w))
       - slept w)
  /\ count_level CRITICAL
       (log (snd (safe_api_request_with_retry transport url timeout retries w)))
     = (count_level CRITICAL (log w)
        + if reports_failure
               (fst (safe_api_request_with_retry transport url timeout retries w))
          then 1 else 0)%nat.
Proof. apply retry_loop_log_counts. Qed.

End RetryLog.

(** ** The functions that print *)

Lemma failure_text_is_message (timeout : Z) (e : req_exc) :
  failure_message timeout (failure_text timeout e).
Proof.
  unfold failure_text.
  destruct (isinstance e ConnectionError); [constructor|].
  destruct (isinstance e Timeout); [constructor|].
  destruct (isinstance e HTTPError); constructor.
Qed.

Section PrintingFacts.

Variable transport : nat -> string -> Z -> get_outcome.
Variable str_strip : string -> string.
Variable str_lower : string -> string.
Variable str_of_value : pyval -> string.
Variable format_spec : pyval -> string -> string + exc.
Variable slice_to : pyval -> Z -> pyval + exc.
Variable builtin_exc_text : exc -> string.

(** The single attempt on a console: it returns, with one more request
    and nothing written or read. *)
Lemma lift_safe_api_request (url : string) (timeout : Z) (c : console) :
  exists v w',
    lift (safe_api_request transport url timeout) c
    = (Done v, {| con_world := w'; stdout := stdout c; stdin := stdin c |})
    /\ calls w' = S (calls (con_world c))
    /\ slept w' = slept (con_world c)
    /\ v = match attempt_outcome (transport (calls (con_world c)) url timeout) with
           | inl data => success data
           | inr e => failure (failure_text timeout e)
           end.
Proof.
  destruct (safe_api_request_run transport url timeout (con_world c))
    as (v & w' & Hrun & Hc & Hs & Hv).
  exists v, w'. unfold lift. rewrite Hrun. repeat split; auto.
  destruct (attempt_outcome _); exact Hv.
Qed.

Ltac same_text :=
  unfold nl; repeat (progress (simpl; rewrite ?append_assoc)); reflexivity.

Ltac run_request H :=
  match goal with
  | |- context [lift (safe_api_request transport ?url ?timeout) ?c] =>
      let v := fresh "v" in
      let w := fresh "w" in
      let Hrun := fresh "Hrun" in
      let Hc := fresh "Hcalls" in
      let Hs := fresh "Hslept" in
      destruct (lift_safe_api_request url timeout c) as (v & w & Hrun & Hc & Hs & H);
      rewrite Hrun; clear Hrun;
      simpl con_world in *; simpl stdout in *; simpl stdin in *
  end.

(** X17.  When the line read is blank once stripped and lowered,
    [fetch_crypto_safely] prints its heading, the prompt and
    "Error: Please enter a coin name.", and returns: it issues no
    request, sleeps nothing and logs nothing. *)
Theorem fetch_crypto_safely_blank_coin (c : console) (line : string)
        (rest : list string) :
  stdin c = line :: rest ->
  str_lower (str_strip line) = "" ->
  fetch_crypto_safely transport str_strip str_lower str_of_value format_spec c
  = (Done tt,
     {| con_world := con_world c;
        stdout := stdout c ++ nl ++ "=== Safe Crypto Price Checker ===" ++ nl ++ nl
                    ++ "Enter coin (btc-bitcoin, eth-ethereum): "
                    ++ "Error: Please enter a coin name." ++ nl;
        stdin := rest |}).
Proof.
  intros Hin Hblank.
  unfold fetch_crypto_safely, io_bind, print, input. simpl.
  rewrite Hin, Hblank. simpl. rewrite !append_assoc. reflexivity.
Qed.

(** X18.  When standard input is at its end, [fetch_crypto_safely]
    ends with EOFError after the heading and the prompt; it issues no
    request and logs nothing. *)
Theorem fetch_crypto_safely_no_input (c : console) :
  stdin c = [] ->
  fetch_crypto_safely transport str_strip str_lower str_of_value format_spec c
  = (Failed EOFError,
     {| con_world := con_world c;
        stdout := stdout c ++ nl ++ "=== Safe Crypto Price Checker ===" ++ nl ++ nl
                    ++ "Enter coin (btc-bitcoin, eth-ethereum): ";
        stdin := [] |}).
Proof.
  intros Hin.
  unfold fetch_crypto_safely, io_bind, print, input. simpl.
  rewrite Hin. rewrite !append_assoc. reflexivity.
Qed.

(** X19.  When a coin is given and the attempt for it fails,
    [fetch_crypto_safely] raises nothing: after one request it prints
    "Error: " with one of the four failure messages of the single
    attempt (timeout 5), then the tip, and returns. *)
Theorem fetch_crypto_safely_failed_request (c : console) (line : string)
        (rest : list string) (e : req_exc) :
  stdin c = line :: rest ->
  str_lower (str_strip line) <> "" ->
  attempt_outcome
    (transport (calls (con_world c))
       ("https://api.coinpaprika.com/v1/tickers/" ++ str_lower (str_strip line)) 5)
  = inr e ->
  exists c' msg,
    fetch_crypto_safely transport str_strip str_lower str_of_value format_spec c
    = (Done tt, c')
    /\ failure_message 5 msg
    /\ stdout c'
       = stdout c ++ nl ++ "=== Safe Crypto Price Checker ===" ++ nl ++ nl
           ++ "Enter coin (btc-bitcoin, eth-ethereum): "
           ++ nl ++ "Error: " ++ msg ++ nl
           ++ "Tip: Try 'btc-bitcoin' or 'eth-ethereum'" ++ nl
    /\ calls (con_world c') = S (calls (con_world c))
    /\ slept (con_world c') = slept (con_world c)
    /\ stdin c' = rest.
Proof.
  intros Hin Hcoin Ho.
  unfold fetch_crypto_safely, io_bind, print, input. simpl.
  rewrite Hin. simpl.
  destruct (String.eqb_spec (str_lower (str_strip line)) "") as [Heq|_];
    [contradiction|].
  cbn [con_world stdout stdin calls slept log].
  run_request Hv. simpl in Ho, Hv. rewrite Ho in Hv. subst v.
  eexists; exists (failure_text 5 e). split; [reflexivity|].
  split; [apply failure_text_is_message|]. simpl.
  split; [same_text|]. auto.
Qed.

Ltac start_fetch Hin Hcoin :=
  unfold fetch_crypto_safely, io_bind, print, input; simpl;
  rewrite Hin; simpl;
  match goal with
  | |- context [String.eqb ?coin ""] =>
      destruct (String.eqb_spec coin "") as [?Heq|_]; [contradiction|]
  end;
  cbn [con_world stdout stdin calls slept log].

(** X20.  [fetch_crypto_safely] uses the payload of a successful
    attempt without validating it: on a mapping without a name entry it
    ends with KeyError for "name", and on a payload that is no mapping
    with TypeError, in both cases after the one request. *)
Theorem fetch_crypto_safely_unvalidated_payload (c : console) (line : string)
        (rest : list string) (data : pyval) :
  stdin c = line :: rest ->
  str_lower (str_strip line) <> "" ->
  attempt_outcome
    (transport (calls (con_world c))
       ("https://api.coinpaprika.com/v1/tickers/" ++ str_lower (str_strip line)) 5)
  = inl data ->
  exists c',
    calls (con_world c') = S (calls (con_world c))
    /\ (forall d, data = PDict d -> dict_get d "name" = None ->
          fetch_crypto_safely transport str_strip str_lower str_of_value
            format_spec c
          = (Failed (Py (KeyError "name")), c'))
    /\ ((forall d, data <> PDict d) ->
          fetch_crypto_safely transport str_strip str_lower str_of_value
            format_spec c
          = (Failed (Py TypeError), c')).
Proof.
  intros Hin Hcoin Ho. start_fetch Hin Hcoin.
  run_request Hv. simpl in Ho, Hv. rewrite Ho in Hv. subst v.
  unfold lift, py_getitem, ret, raise. simpl.
  eexists. split; [|split].
  2:{ intros d -> Hname. rewrite Hname. reflexivity. }
  - simpl. exact Hcalls.
  - intros Hnot. destruct data; try reflexivity. now elim (Hnot entries).
Qed.

(** X21.  The validator guards what [fetch_crypto_safely] reads: when
    the attempt succeeds with a mapping that the validator reports valid,
    whose USD entry is a mapping, and that has a name and a symbol, every
    subscript of the function evaluates; if the two prices format, the
    function returns after printing the name line, the price line and the
    change line. *)
Theorem fetch_crypto_safely_validated_payload (c : console) (line : string)
        (rest : list string) (d : list (string * pyval)) (name symbol : pyval)
        (w0 : world) :
  stdin c = line :: rest ->
  str_lower (str_strip line) <> "" ->
  attempt_outcome
    (transport (calls (con_world c))
       ("https://api.coinpaprika.com/v1/tickers/" ++ str_lower (str_strip line)) 5)
  = inl (PDict d) ->
  fst (validate_crypto_data (PDict d) w0) = Ret valid_result ->
  usd_is_mapping (PDict d) = true ->
  dict_get d "name" = Some name ->
  dict_get d "symbol" = Some symbol ->
  exists q u price change,
    dict_get d "quotes" = Some (PDict q)
    /\ dict_get q "USD" = Some (PDict u)
    /\ dict_get u "price" = Some price
    /\ dict_get u "percent_change_24h" = Some change
    /\ forall price_text change_text,
         format_spec price ",.2f" = inl price_text ->
         format_spec change "+.2f" = inl change_text ->
         exists c',
           fetch_crypto_safely transport str_strip str_lower str_of_value
             format_spec c
           = (Done tt, c')
           /\ stdout c'
              = stdout c ++ nl ++ "=== Safe Crypto Price Checker ===" ++ nl ++ nl
                  ++ "Enter coin (btc-bitcoin, eth-ethereum): "
                  ++ nl ++ py_str str_of_value name ++ " ("
                  ++ py_str str_of_value symbol ++ ")" ++ nl
                  ++ "Price: $" ++ price_text ++ nl
                  ++ "24h Change: " ++ change_text ++ "%" ++ nl.
Proof.
  intros Hin Hcoin Ho Hvalid Hmap Hname Hsymbol.
  destruct (validate_valid_inversion (PDict d) w0 Hvalid)
    as (d' & q & usd & [= <-] & Hq & Hu & _ & _ & Hfields).
  simpl in Hmap. rewrite Hq, Hu in Hmap.
  destruct usd as [| | | | | | u]; try discriminate.
  destruct (Hfields u eq_refl) as (price & change & Hprice & Hchange).
  exists q, u, price, change. repeat (split; [assumption|]).
  intros price_text change_text Hp Hc.
  start_fetch Hin Hcoin.
  run_request Hv. simpl in Ho, Hv. rewrite Ho in Hv. subst v.
  unfold lift, py_getitem, py_format, ret, raise, io_ret. simpl.
  rewrite Hname, Hsymbol. simpl. rewrite Hq. simpl. rewrite Hu. simpl.
  rewrite Hprice, Hp. simpl. rewrite Hchange, Hc. simpl.
  eexists. split; [reflexivity|]. simpl. same_text.
Qed.

Ltac run_json :=
  unfold validate_json_response, validate_json_body, validate_json_handler,
    io_try, io_bind, lift, print, requests_get, raise_for_status, response_json,
    missing_in, py_in, py_getitem, py_exc_str, dict_has, logging, bind, ret,
    raise, isinstance;
  simpl.

(** Every run of [validate_json_response]: it returns, after exactly
    one request, without sleeping or reading. *)
Lemma validate_json_response_runs (c : console) :
  exists c',
    validate_json_response transport str_of_value builtin_exc_text c = (Done tt, c')
    /\ calls (con_world c') = S (calls (con_world c))
    /\ slept (con_world c') = slept (con_world c)
    /\ stdin c' = stdin c.
Proof.
  run_json.
  destruct (transport (calls (con_world c)) _ 5) as [s msg | r]; simpl.
  - destruct s; simpl; (eexists; split; [reflexivity | repeat split]).
  - destruct (http_error_msg r); simpl.
    2:{ eexists; split; [reflexivity | repeat split]. }
    destruct (body_json r) as [data | msg]; simpl.
    2:{ eexists; split; [reflexivity | repeat split]. }
    destruct data as [| | | | s | items | d]; simpl;
      try (eexists; split; [reflexivity | repeat split]).
    + destruct (is_substring "name" s), (is_substring "email" s),
        (is_substring "phone" s); simpl;
        (eexists; split; [reflexivity | repeat split]).
    + repeat match goal with
             | |- context [existsb ?f items] => destruct (existsb f items); simpl
             end;
        (eexists; split; [reflexivity | repeat split]).
    + destruct (dict_get d "name"), (dict_get d "email"), (dict_get d "phone");
        simpl; (eexists; split; [reflexivity | repeat split]).
Qed.

(** X22.  [validate_json_response] never raises: whatever the transport
    does and whatever the payload is, every exception is caught and the
    function returns, after exactly one request, without sleeping and
    without reading standard input. *)
Theorem validate_json_response_never_raises (c : console) :
  exists c',
    validate_json_response transport str_of_value builtin_exc_text c = (Done tt, c')
    /\ calls (con_world c') = S (calls (con_world c))
    /\ slept (con_world c') = slept (con_world c)
    /\ stdin c' = stdin c.
Proof. apply validate_json_response_runs. Qed.


(** X24.  When the response decodes to a mapping,
    [validate_json_response] reports all the fields among name, email and
    phone that the mapping lacks, in that order, in one warning line; and
    when it lacks none, it prints the three values. *)
Theorem validate_json_response_fields (c : console) (r : response)
        (d : list (string * pyval)) :
  transport (calls (con_world c)) "https://jsonplaceholder.typicode.com/users/1" 5
  = GetReturns r ->
  status_code r < 400 \/ 600 <= status_code r ->
  body_json r = inl (PDict d) ->
  exists c',
    validate_json_response transport str_of_value builtin_exc_text c = (Done tt, c')
    /\ (let missing := filter (fun f => negb (dict_has d f)) ["name"; "email"; "phone"] in
        missing <> [] ->
        stdout c'
        = stdout c ++ nl ++ "=== JSON Validation Demo ===" ++ nl ++ nl
            ++ "Warning: Missing fields: " ++ py_str_list missing ++ nl)
    /\ (forall name email phone,
          dict_get d "name" = Some name ->
          dict_get d "email" = Some email ->
          dict_get d "phone" = Some phone ->
          stdout c'
          = stdout c ++ nl ++ "=== JSON Validation Demo ===" ++ nl ++ nl
              ++ "All required fields present!" ++ nl
              ++ "Name: " ++ py_str str_of_value name ++ nl
              ++ "Email: " ++ py_str str_of_value email ++ nl
              ++ "Phone: " ++ py_str str_of_value phone ++ nl).
Proof.
  intros Ht Hs Hb. run_json. simpl in Ht. rewrite Ht. simpl.
  rewrite (http_error_msg_passes r Hs), Hb. simpl.
  destruct (dict_get d "name") as [name|], (dict_get d "email") as [email|],
    (dict_get d "phone") as [phone|]; simpl;
    (eexists; split; [reflexivity|]; split;
     [ intros Hmissing; try (now elim Hmissing); simpl; same_text
     | intros ? ? ? Hn He Hp; try discriminate;
       injection Hn as <-; injection He as <-; injection Hp as <-;
       simpl; same_text ]).
Qed.

(** X25.  When the attempt ends with an exception of the request that
    is no decode error (the GET raises, or the status is from 400 to
    599), [validate_json_response] prints "Error: " followed by the
    exception's own text, for every class alike. *)
Theorem validate_json_response_request_error (c : console) (e : req_exc) :
  attempt_outcome
    (transport (calls (con_world c)) "https://jsonplaceholder.typicode.com/users/1" 5)
  = inr e ->
  isinstance e JSONDecodeError = false ->
  exists c',
    validate_json_response transport str_of_value builtin_exc_text c = (Done tt, c')
    /\ stdout c'
       = stdout c ++ nl ++ "=== JSON Validation Demo ===" ++ nl ++ nl
           ++ "Error: " ++ exc_msg e ++ nl.
Proof.
  intros Ho Hcls. run_json. simpl in Ho. unfold attempt_outcome in Ho.
  destruct (transport (calls (con_world c)) _ 5) as [s msg | r]; simpl.
  - injection Ho as <-. clear Hcls.
    destruct s; simpl; (eexists; split; [reflexivity | simpl; same_text]).
  - destruct (http_error_msg r) eqn:Hm; simpl.
    + destruct (body_json r); [discriminate|].
      injection Ho as <-. discriminate.
    + injection Ho as <-. simpl.
      eexists; split; [reflexivity|]. simpl. same_text.
Qed.

(** A subscript on a mapping, run on a console. *)
Lemma lift_py_getitem_dict (d : list (string * pyval)) (key : string)
      (c : console) :
  lift (py_getitem (PDict d) key) c
  = (match dict_get d key with
     | Some v => Done v
     | None => Failed (Py (KeyError key))
     end,
     {| con_world := con_world c; stdout := stdout c; stdin := stdin c |}).
Proof.
  unfold lift, py_getitem, ret, raise. now destruct (dict_get d key).
Qed.

Ltac read_result :=
  unfold print_failed, io_bind, print, success, failure;
  rewrite ?lift_py_getitem_dict; simpl;
  rewrite ?lift_py_getitem_dict; simpl.

Ltac next_request :=
  let Hv := fresh "Hv" in
  run_request Hv;
  match type of Hv with
  | _ = match ?o with _ => _ end => destruct o
  end;
  rewrite Hv; clear Hv; read_result.

(** When its first attempt fails, [demo_error_handling] runs its four
    tests to the end. *)
Lemma demo_error_handling_runs (c : console) (e : req_exc) :
  attempt_outcome
    (transport (calls (con_world c)) "https://jsonplaceholder.typicode.com/posts/1" 5)
  = inr e ->
  exists c',
    demo_error_handling transport str_of_value slice_to c = (Done tt, c')
    /\ calls (con_world c') = (calls (con_world c) + 4)%nat
    /\ slept (con_world c') = slept (con_world c)
    /\ stdin c' = stdin c.
Proof.
  intros Ho. unfold demo_error_handling, io_bind, print. simpl.
  cbn [con_world stdout stdin calls slept log].
  run_request Hv. simpl in Ho, Hv. rewrite Ho in Hv. subst v. read_result.
  next_request; next_request; next_request;
    (eexists; split; [reflexivity|]; simpl; repeat split; lia).
Qed.


(** X27.  When the first attempt of [demo_error_handling] succeeds with
    a mapping that has no title, the function ends with KeyError for
    "title" after that one request: the three other tests do not run. *)
Theorem demo_error_handling_untitled_post (c : console)
        (d : list (string * pyval)) :
  attempt_outcome
    (transport (calls (con_world c)) "https://jsonplaceholder.typicode.com/posts/1" 5)
  = inl (PDict d) ->
  dict_get d "title" = None ->
  exists c',
    demo_error_handling transport str_of_value slice_to c
    = (Failed (Py (KeyError "title")), c')
    /\ calls (con_world c') = S (calls (con_world c)).
Proof.
  intros Ho Htitle. unfold demo_error_handling, io_bind, print. simpl.
  cbn [con_world stdout stdin calls slept log].
  run_request Hv. simpl in Ho, Hv. rewrite Ho in Hv. subst v. read_result.
  rewrite Htitle. eexists; split; [reflexivity|]. exact Hcalls.
Qed.

(** X28.  When all four attempts of [demo_error_handling] fail, it
    prints under each test heading the line "Failed: " with the message
    of the single attempt for that exception, computed with the timeout 5
    for the first three tests and the timeout 1 for the fourth. *)
Theorem demo_error_handling_all_fail (c : console) (e1 e2 e3 e4 : req_exc) :
  attempt_outcome
    (transport (calls (con_world c))
       "https://jsonplaceholder.typicode.com/posts/1" 5) = inr e1 ->
  attempt_outcome
    (transport (S (calls (con_world c)))
       "https://jsonplaceholder.typicode.com/posts/99999" 5) = inr e2 ->
  attempt_outcome
    (transport (S (S (calls (con_world c))))
       "https://this-domain-does-not-exist-12345.com/api" 5) = inr e3 ->
  attempt_outcome
    (transport (S (S (S (calls (con_world c)))))
       "https://httpstat.us/200?sleep=5000" 1) = inr e4 ->
  exists c',
    demo_error_handling transport str_of_value slice_to c = (Done tt, c')
    /\ stdout c'
       = stdout c ++ "=== Error Handling Demo ===" ++ nl ++ nl
           ++ "--- Test 1: Valid URL ---" ++ nl
           ++ "Failed: " ++ failure_text 5 e1 ++ nl
           ++ nl ++ "--- Test 2: Non-existent Resource (404) ---" ++ nl
           ++ "Failed: " ++ failure_text 5 e2 ++ nl
           ++ nl ++ "--- Test 3: Invalid Domain ---" ++ nl
           ++ "Failed: " ++ failure_text 5 e3 ++ nl
           ++ nl ++ "--- Test 4: Timeout Simulation ---" ++ nl
           ++ "Failed: " ++ failure_text 1 e4 ++ nl.
Proof.
  intros H1 H2 H3 H4. unfold demo_error_handling, io_bind, print. simpl.
  cbn [con_world stdout stdin calls slept log].
  run_request Hv1. simpl in H1, Hv1. rewrite H1 in Hv1. subst v. read_result.
  run_request Hv2. rewrite Hcalls in Hv2. simpl in H2, Hv2. rewrite H2 in Hv2.
  subst v. read_result.
  run_request Hv3. rewrite Hcalls0, Hcalls in Hv3. simpl in H3, Hv3.
  rewrite H3 in Hv3. subst v. read_result.
  run_request Hv4. rewrite Hcalls1, Hcalls0, Hcalls in Hv4. simpl in H4, Hv4.
  rewrite H4 in Hv4. subst v. read_result.
  eexists; split; [reflexivity|]. simpl. same_text.
Qed.

(** [fetch_crypto_safely] when a line can be read and the attempt, if
    one is made, fails. *)
Lemma fetch_crypto_safely_runs (c : console) (line : string) (rest : list string) :
  stdin c = line :: rest ->
  (forall url, exists e,
      attempt_outcome (transport (calls (con_world c)) url 5) = inr e) ->
  exists c',
    fetch_crypto_safely transport str_strip str_lower str_of_value format_spec c
    = (Done tt, c')
    /\ calls (con_world c')
       = (calls (con_world c)
          + if String.eqb (str_lower (str_strip line)) "" then 0 else 1)%nat
    /\ slept (con_world c') = slept (con_world c)
    /\ stdin c' = rest.
Proof.
  intros Hin Hfail.
  unfold fetch_crypto_safely, io_bind, print, input. simpl. rewrite Hin. simpl.
  destruct (String.eqb (str_lower (str_strip line)) "").
  - eexists; split; [reflexivity|]. simpl. repeat split; lia.
  - cbn [con_world stdout stdin calls slept log].
    run_request Hv. simpl in Hv.
    match type of Hv with
    | _ = match attempt_outcome (transport _ ?url _) with _ => _ end =>
        destruct (Hfail url) as (e & He); rewrite He in Hv
    end.
    subst v. read_result.
    eexists; split; [reflexivity|]. simpl in *. repeat split; lia.
Qed.

(** X29.  When every attempt fails and a line can be read, [main] runs
    the three parts to the end without raising: it issues four requests
    in the demo, one in the JSON validation and one for the coin unless
    the coin is blank, and it never sleeps. *)
Theorem main_when_requests_fail (c : console) (line : string)
        (rest : list string) :
  (forall n url timeout, exists e,
      attempt_outcome (transport n url timeout) = inr e) ->
  stdin c = line :: rest ->
  exists c',
    main transport str_strip str_lower str_of_value format_spec slice_to
      builtin_exc_text c
    = (Done tt, c')
    /\ calls (con_world c')
       = (calls (con_world c) + 5
          + if String.eqb (str_lower (str_strip line)) "" then 0 else 1)%nat
    /\ slept (con_world c') = slept (con_world c)
    /\ stdin c' = rest.
Proof.
  intros Hfail Hin. unfold main, io_bind.
  destruct (Hfail (calls (con_world c))
              "https://jsonplaceholder.typicode.com/posts/1" 5) as (e1 & He1).
  destruct (demo_error_handling_runs c e1 He1) as (c1 & Hdemo & Hc1 & Hs1 & Hi1).
  rewrite Hdemo. unfold print at 1. cbv beta iota.
  match goal with
  | |- context [validate_json_response transport str_of_value builtin_exc_text ?c2] =>
      destruct (validate_json_response_runs c2) as (c3 & Hjson & Hc3 & Hs3 & Hi3)
  end.
  rewrite Hjson. unfold print at 1. cbv beta iota.
  match goal with
  | |- context [fetch_crypto_safely transport str_strip str_lower str_of_value
                  format_spec ?c4] =>
      destruct (fetch_crypto_safely_runs c4 line rest) as (c5 & Hfetch & Hc5 & Hs5 & Hi5)
  end.
  - simpl. rewrite Hi3. simpl. rewrite Hi1. exact Hin.
  - intros url. apply Hfail.
  - rewrite Hfetch. exists c5. split; [reflexivity|].
    simpl in *. repeat split; try congruence. lia.
Qed.

End PrintingFacts.

(** ** The functions that print, on sample runs *)

Lemma fetch_crypto_safely_blank_coin_witness :
  fst (fetch_crypto_safely always_times_out ascii_strip ascii_lower
         some_value_text small_int_format (console0 ["   "]))
  = Done tt.
Proof.
  rewrite (fetch_crypto_safely_blank_coin always_times_out ascii_strip ascii_lower
             some_value_text small_int_format (console0 ["   "]) "   " []
             eq_refl eq_refl).
  reflexivity.
Defined.

Lemma fetch_crypto_safely_no_input_witness :
  fst (fetch_crypto_safely always_times_out ascii_strip ascii_lower
         some_value_text small_int_format (console0 []))
  = Failed EOFError.
Proof.
  rewrite (fetch_crypto_safely_no_input always_times_out ascii_strip ascii_lower
             some_value_text small_int_format (console0 []) eq_refl).
  reflexivity.
Defined.

Lemma fetch_crypto_safely_failed_request_witness :
  exists c' msg,
    fetch_crypto_safely always_times_out ascii_strip ascii_lower
      some_value_text small_int_format (console0 [" BTC-Bitcoin "])
    = (Done tt, c')
    /\ failure_message 5 msg.
Proof.
  assert (Hcoin : ascii_lower (ascii_strip " BTC-Bitcoin ") <> "")
    by (vm_compute; discriminate).
  destruct (fetch_crypto_safely_failed_request always_times_out ascii_strip
              ascii_lower some_value_text small_int_format
              (console0 [" BTC-Bitcoin "]) " BTC-Bitcoin " []
              {| exc_cls := ReadTimeout; exc_msg := "Read timed out.";
                 exc_response := None |}
              eq_refl Hcoin eq_refl)
    as (c' & msg & Hrun & Hmsg & _).
  exists c', msg. split; [exact Hrun | exact Hmsg].
Defined.

Lemma fetch_crypto_safely_unvalidated_payload_witness :
  exists c',
    fetch_crypto_safely answers_600 ascii_strip ascii_lower
      some_value_text small_int_format (console0 ["btc-bitcoin"])
    = (Failed (Py (KeyError "name")), c').
Proof.
  assert (Hcoin : ascii_lower (ascii_strip "btc-bitcoin") <> "")
    by (vm_compute; discriminate).
  destruct (fetch_crypto_safely_unvalidated_payload answers_600 ascii_strip
              ascii_lower some_value_text small_int_format
              (console0 ["btc-bitcoin"]) "btc-bitcoin" [] post_1
              eq_refl Hcoin eq_refl)
    as (c' & _ & Hkey & _).
  exists c'. exact (Hkey _ eq_refl eq_refl).
Defined.

Lemma fetch_crypto_safely_validated_payload_witness :
  exists c',
    fetch_crypto_safely answers_ticker ascii_strip ascii_lower
      some_value_text small_int_format (console0 ["btc-bitcoin"])
    = (Done tt, c').
Proof.
  assert (Hcoin : ascii_lower (ascii_strip "btc-bitcoin") <> "")
    by (vm_compute; discriminate).
  destruct (fetch_crypto_safely_validated_payload answers_ticker ascii_strip
              ascii_lower some_value_text small_int_format
              (console0 ["btc-bitcoin"]) "btc-bitcoin" []
              [("id", PStr "btc-bitcoin"); ("name", PStr "Bitcoin");
               ("symbol", PStr "BTC");
               ("quotes", PDict [("USD", PDict [("price", PInt 1);
                                                ("percent_change_24h", PInt 2)])])]
              (PStr "Bitcoin") (PStr "BTC") world0
              eq_refl Hcoin eq_refl eq_refl eq_refl eq_refl eq_refl)
    as (q & u & price & change & Hq & Hu & Hp & Hc & Hrun).
  simpl in Hq. injection Hq as <-.
  simpl in Hu. injection Hu as <-.
  simpl in Hp, Hc. injection Hp as <-. injection Hc as <-.
  destruct (Hrun "1.00" "+2.00" eq_refl eq_refl) as (c' & Hdone & _).
  exists c'. exact Hdone.
Defined.


Lemma validate_json_response_fields_witness :
  exists c',
    validate_json_response answers_user some_value_text some_exc_text (console0 [])
    = (Done tt, c')
    /\ stdout c'
       = nl ++ "=== JSON Validation Demo ===" ++ nl ++ nl
            ++ "Warning: Missing fields: ['phone']" ++ nl.
Proof.
  destruct (validate_json_response_fields answers_user some_value_text
              some_exc_text (console0 [])
              {| status_code := 200; reason := "OK";
                 resp_url := "https://jsonplaceholder.typicode.com/users/1";
                 body_json := inl (PDict [("name", PStr "Leanne Graham");
                                          ("email", PStr "leanne@example.org")]) |}
              [("name", PStr "Leanne Graham"); ("email", PStr "leanne@example.org")]
              eq_refl (or_introl eq_refl) eq_refl)
    as (c' & Hrun & Hmissing & _).
  exists c'. split; [exact Hrun|].
  apply Hmissing. discriminate.
Defined.

Lemma validate_json_response_request_error_witness :
  exists c',
    validate_json_response always_times_out some_value_text some_exc_text
      (console0 [])
    = (Done tt, c')
    /\ stdout c'
       = nl ++ "=== JSON Validation Demo ===" ++ nl ++ nl
            ++ "Error: Read timed out." ++ nl.
Proof.
  apply (validate_json_response_request_error always_times_out some_value_text
           some_exc_text (console0 [])
           {| exc_cls := ReadTimeout; exc_msg := "Read timed out.";
              exc_response := None |}
           eq_refl eq_refl).
Defined.


Lemma demo_error_handling_untitled_post_witness :
  exists c',
    demo_error_handling answers_user some_value_text ascii_slice_to (console0 [])
    = (Failed (Py (KeyError "title")), c')
    /\ calls (con_world c') = 1%nat.
Proof.
  apply (demo_error_handling_untitled_post answers_user some_value_text
           ascii_slice_to (console0 [])
           [("name", PStr "Leanne Graham"); ("email", PStr "leanne@example.org")]
           eq_refl eq_refl).
Defined.

Lemma demo_error_handling_all_fail_witness :
  exists c',
    demo_error_handling always_times_out some_value_text ascii_slice_to (console0 [])
    = (Done tt, c').
Proof.
  destruct (demo_error_handling_all_fail always_times_out some_value_text
              ascii_slice_to (console0 [])
              {| exc_cls := ReadTimeout; exc_msg := "Read timed out.";
                 exc_response := None |}
              {| exc_cls := ReadTimeout; exc_msg := "Read timed out.";
                 exc_response := None |}
              {| exc_cls := ReadTimeout; exc_msg := "Read timed out.";
                 exc_response := None |}
              {| exc_cls := ReadTimeout; exc_msg := "Read timed out.";
                 exc_response := None |}
              eq_refl eq_refl eq_refl eq_refl)
    as (c' & Hrun & _).
  exists c'. exact Hrun.
Defined.

Lemma main_when_requests_fail_witness :
  exists c',
    main always_times_out ascii_strip ascii_lower some_value_text small_int_format
      ascii_slice_to some_exc_text (console0 ["btc-bitcoin"])
    = (Done tt, c')
    /\ calls (con_world c') = 6%nat.
Proof.
  destruct (main_when_requests_fail always_times_out ascii_strip ascii_lower
              some_value_text small_int_format ascii_slice_to some_exc_text
              (console0 ["btc-bitcoin"]) "btc-bitcoin" [])
    as (c' & Hrun & Hcalls & _).
  - intros n url timeout. eexists. reflexivity.
  - reflexivity.
  - exists c'. split; [exact Hrun | exact Hcalls].
Defined.

(** ** Exceptions outside the requests hierarchy *)

(** On a transport whose outcomes are all listed, the functions of
    [Full] are the functions above. *)
Lemma full_try_body_listed (transport : nat -> string -> Z -> get_outcome)
      (url : string) (timeout : Z) (w : world) :
  Full.try_body (listed transport) url timeout w = try_body transport url timeout w.
Proof. reflexivity. Qed.

Lemma full_safe_api_request_listed (transport : nat -> string -> Z -> get_outcome)
      (url : string) (timeout : Z) (w : world) :
  Full.safe_api_request (listed transport) url timeout w
  = safe_api_request transport url timeout w.
Proof. reflexivity. Qed.

Lemma full_retry_loop_listed (transport : nat -> string -> Z -> get_outcome)
      (url : string) (timeout retries : Z) (attempts : list Z) (w : world) :
  Full.retry_loop (listed transport) url timeout retries attempts w
  = retry_loop transport url timeout retries attempts w.
Proof. reflexivity. Qed.

Section FullFacts.

Variable transport : nat -> string -> Z -> any_outcome.

(** The statements under [try:] on any outcome of the GET: the escaping
    exception is raised as it is. *)
Lemma full_try_body_run (url : string) (timeout : Z) (w : world) :
  exists w',
    Full.try_body transport url timeout w
    = (match transport (calls w) url timeout with
       | GetEscapes class_name text => Raise (OtherException class_name text)
       | GetListed o =>
           match attempt_outcome o with
           | inl data => Ret (success data)
           | inr e => Raise (Requests e)
           end
       end, w')
    /\ calls w' = S (calls w) /\ slept w' = slept w.
Proof.
  unfold Full.try_body, bind, Full.requests_get, raise_for_status, response_json,
    attempt_outcome, logging, ret, raise.
  destruct (transport (calls w) url timeout) as [class_name text | [s msg | r]];
    simpl.
  - eexists; split; [reflexivity | split; reflexivity].
  - eexists; split; [reflexivity | split; reflexivity].
  - destruct (http_error_msg r); simpl.
    + destruct (body_json r); simpl;
        (eexists; split; [reflexivity | split; reflexivity]).
    + eexists; split; [reflexivity | split; reflexivity].
Qed.


(** The single attempt when the GET ends with an exception of another
    class: no clause matches, and the exception leaves the function. *)
Lemma full_safe_api_request_on_escape (url : string) (timeout : Z) (w : world)
      (class_name text : string) :
  transport (calls w) url timeout = GetEscapes class_name text ->
  Full.safe_api_request transport url timeout w
  = (Raise (OtherException class_name text),
     {| calls := S (calls w); slept := slept w;
        log := log w ++ [(INFO, "Requesting URL: " ++ url)] |}).
Proof.
  intros H.
  unfold Full.safe_api_request, Full.try_body, Full.requests_get, bind,
    try_except, logging.
  simpl. rewrite H. reflexivity.
Qed.

(** One turn of the loop on any outcome of the GET: the exception of
    another class leaves the loop at once; a success is returned; the
    failure of the last attempt is reported; any other failure is
    followed by a second of sleep and the attempts that remain. *)
Lemma full_retry_loop_turn (url : string) (timeout retries attempt : Z)
      (rest : list Z) (w : world) :
  (exists class_name text w',
      transport (calls w) url timeout = GetEscapes class_name text
      /\ Full.retry_loop transport url timeout retries (attempt :: rest) w
         = (Raise (OtherException class_name text), w')
      /\ calls w' = S (calls w) /\ slept w' = slept w)
  \/ (exists o data w',
        transport (calls w) url timeout = GetListed o
        /\ attempt_outcome o = inl data
        /\ Full.retry_loop transport url timeout retries (attempt :: rest) w
           = (Ret (success data), w')
        /\ calls w' = S (calls w) /\ slept w' = slept w)
  \/ (exists o e w',
        transport (calls w) url timeout = GetListed o
        /\ attempt_outcome o = inr e
        /\ attempt = retries
        /\ Full.retry_loop transport url timeout retries (attempt :: rest) w
           = (Ret (failure ("Failed after " ++ py_str_int retries
                              ++ " attempts: " ++ exc_msg e)), w')
        /\ calls w' = S (calls w) /\ slept w' = slept w)
  \/ (exists o e w1,
        transport (calls w) url timeout = GetListed o
        /\ attempt_outcome o = inr e
        /\ attempt <> retries
        /\ Full.retry_loop transport url timeout retries (attempt :: rest) w
           = Full.retry_loop transport url timeout retries rest w1
        /\ calls w1 = S (calls w) /\ slept w1 = slept w + 1).
Proof.
  simpl Full.retry_loop. unfold bind, try_except, logging, time_sleep.
  cbv beta iota.
  match goal with
  | |- context [Full.try_body transport url timeout ?w0] =>
      destruct (full_try_body_run url timeout w0) as (w' & Hrun & Hc & Hs)
  end.
  rewrite Hrun. simpl calls in *. simpl slept in *.
  destruct (transport (calls w) url timeout) as [class_name text | o].
  - left. exists class_name, text, w'. auto.
  - right. destruct (attempt_outcome o) as [data | e] eqn:Ho.
    + left. exists o, data, w'. repeat split; auto.
    + right. rewrite retry_clause_catches.
      destruct (Z.eqb_spec attempt retries) as [Heq | Hne].
      * left. exists o, e. eexists. split; [reflexivity|]. split; [exact Ho|].
        split; [exact Heq|]. split; [reflexivity|]. simpl. split; assumption.
      * right. exists o, e. eexists. split; [reflexivity|]. split; [exact Ho|].
        split; [exact Hne|]. split; [reflexivity|]. simpl. split; congruence.
Qed.

(** The loop over the attempts lo..retries, however it ends: it issues
    at least one request and at most one for each attempt, it sleeps one
    second less than the requests it issued, and what it returns has the
    shape of a result. *)
Lemma full_retry_loop_bounds (url : string) (timeout retries : Z) (n : nat) :
  forall (lo : Z) (w : world),
    lo + Z.of_nat n = retries ->
    (calls w
     < calls (snd (Full.retry_loop transport url timeout retries
                     (py_range lo (retries + 1)) w))
     <= calls w + S n)%nat
    /\ slept (snd (Full.retry_loop transport url timeout retries
                     (py_range lo (retries + 1)) w))
       = slept w
         + Z.of_nat (calls (snd (Full.retry_loop transport url timeout retries
                                   (py_range lo (retries + 1)) w))
                     - calls w - 1)
    /\ forall v,
         fst (Full.retry_loop transport url timeout retries
                (py_range lo (retries + 1)) w) = Ret v ->
         result_shape v.
Proof.
  induction n as [|n IH]; intros lo w Hlo;
    rewrite (py_range_cons lo (retries + 1)) by lia;
    destruct (full_retry_loop_turn url timeout retries lo
                (py_range (lo + 1) (retries + 1)) w)
      as [(class_name & text & w' & _ & Hrun & Hc & Hs)
         | [(o & data & w' & _ & _ & Hrun & Hc & Hs)
           | [(o & e & w' & _ & _ & _ & Hrun & Hc & Hs)
             | (o & e & w1 & _ & _ & Hne & Hrun & Hc & Hs)]]];
    try (rewrite Hrun; simpl; split; [lia|]; split; [lia|]).
  - discriminate.
  - intros v [= <-]. exists [("success", PBool true); ("data", data)], true.
    repeat split; discriminate.
  - intros v [= <-]. eexists; exists false. split; [reflexivity|].
    repeat split; discriminate.
  - lia.
  - discriminate.
  - intros v [= <-]. exists [("success", PBool true); ("data", data)], true.
    repeat split; discriminate.
  - intros v [= <-]. eexists; exists false. split; [reflexivity|].
    repeat split; discriminate.
  - rewrite Hrun. destruct (IH (lo + 1) w1 ltac:(lia)) as (Hcalls & Hslept & Hshape).
    split; [lia|]. split; [lia | exact Hshape].
Qed.


End FullFacts.





(** X11.  With a positive retry count N the retrying execution issues
    at least one request and at most N, and sleeps one second between two
    requests only, one second less than the requests it issued, whether
    it returns or an exception of another class leaves it; and whenever
    it returns, the value is a success or failure mapping, never None. *)
Theorem retry_positive_requests_and_result
        (transport : nat -> string -> Z -> any_outcome)
        (url : string) (timeout retries : Z) (w : world) :
  0 < retries ->
  (calls w
   < calls (snd (Full.safe_api_request_with_retry transport url timeout retries w))
   <= calls w + Z.to_nat retries)%nat
  /\ slept (snd (Full.safe_api_request_with_retry transport url timeout retries w))
     = slept w
       + Z.of_nat (calls (snd (Full.safe_api_request_with_retry transport url
                                 timeout retries w))
                   - calls w - 1)
  /\ forall v,
       fst (Full.safe_api_request_with_retry transport url timeout retries w)
       = Ret v ->
       result_shape v.
Proof.
  intros Hpos. unfold Full.safe_api_request_with_retry.
  destruct (full_retry_loop_bounds transport url timeout retries
              (Z.to_nat retries - 1) 1 w ltac:(lia))
    as (Hcalls & Hslept & Hshape).
  split; [lia|]. split; [exact Hslept | exact Hshape].
Qed.

Lemma retry_positive_requests_and_result_witness :
  (0 < calls (snd (Full.safe_api_request_with_retry rejects_timeout
                     "https://example.org" 0 2 world0))
   <= 2)%nat.
Proof.
  apply (retry_positive_requests_and_result rejects_timeout "https://example.org"
           0 2 world0).
  lia.
Defined.
